(** * django-todo: the task detail view

    A shallow embedding of [todo/views/task_detail.py]: the view
    [task_detail], its helper [handle_add_comment], the two decorators
    that guard it, and the rows of the three tables it reads and writes.

    The database, the outgoing mail, the flash messages of
    [django.contrib.messages] and a record of the workflows a request
    entered are threaded through every function as one [World]. *)

From Stdlib Require Import ZArith.
From stdpp Require Import base option list gmap strings pretty.

Local Open Scope Z_scope.
Local Open Scope string_scope.
Local Open Scope list_scope.

(** ** Rows *)

Module Model.

Record User := {
  user_id : Z;
  is_authenticated : bool;
  is_staff : bool;
  is_superuser : bool;
  groups : list Z
}.

Record TaskList := {
  list_id : Z;
  slug : string;
  group : Z
}.

Record Task := {
  title : string;
  note : string;
  due_date : option Z;
  completed : bool;
  task_list : TaskList;
  merged_into : option Z
}.

Record Comment := {
  task : Z;
  author : Z;
  body : string;
  date : Z
}.

Record Attachment := {
  comment_id : Z;
  file : string
}.

End Model.
Import Model.

(** ** Requests and responses *)

Record Request := {
  user : User;
  POST : gmap string string;
  FILES : gmap string string;
  now : Z
}.

(** [request.POST.get(key)] used as a condition: a missing key gives
    [None], and both [None] and the empty string are false. *)
Definition truthy (v : option string) : bool :=
  match v with
  | Some (String _ _) => true
  | _ => false
  end.

Inductive Url :=
| task_detail_url (task_id : Z)
| list_detail_url (list_id : Z) (list_slug : string).

Inductive CommentForm :=
| AddEditCommentForm
| AddEditCommentForm_bound (data files : gmap string string).

Inductive AttachmentFormSet :=
| AttachmentFormSet_unbound
| AttachmentFormSet_bound (data files : gmap string string).

Inductive TaskForm :=
| AddEditTaskForm (u : User) (instance : Task) (initial_task_list : TaskList)
| AddEditTaskForm_bound (u : User) (data : gmap string string)
    (instance : Task) (initial_task_list : TaskList).

Inductive MergeForm :=
| MergeForm_unbound
| MergeForm_bound (data : gmap string string).

(** [Comment.objects.filter(task=...).order_by(...)] is lazy: the view
    only builds the query, the template runs it. *)
Record QuerySet := {
  filter_task : Z;
  order_by : string
}.

Record TemplateContext := {
  ctx_task : Task;
  ctx_comment_list : QuerySet;
  ctx_form : TaskForm;
  ctx_merge_form : option MergeForm;
  ctx_comment_form : CommentForm;
  ctx_attachments_formset : AttachmentFormSet;
  ctx_thedate : Z;
  ctx_comment_classes : list string;
  ctx_attachments_enabled : bool
}.

(** What the client gets back.  Exceptions that leave the view are the
    responses Django turns them into. *)
Inductive Response :=
| render (template : string) (context : TemplateContext)
| redirect (to : Url)
| redirect_to_login
| PermissionDenied
| Http404
| UnboundLocalError (name : string).

(** ** The world a request runs in *)

Inductive Workflow := CommentSubmission | TaskEdit | TaskMerge | CompletionToggle.

Global Instance Workflow_eq_dec : EqDecision Workflow.
Proof. solve_decision. Defined.

Record Email := {
  recipients : gset Z;
  subject : string;
  message : string;
  sender : Z
}.

(** The tables, the mail that went out, the flash messages and the
    workflows entered.  [tasks] holds the live tasks, the rows that
    [Task.objects] serves; [merged] holds the rows a merge has retired. *)
Record World := {
  tasks : gmap Z Task;
  merged : gmap Z Task;
  comments : gmap Z Comment;
  attachments : gmap Z Attachment;
  outbox : list Email;
  messages : list string;
  entered : list Workflow
}.

Definition set_tasks (f : gmap Z Task → gmap Z Task) (w : World) : World :=
  {| tasks := f (tasks w); merged := merged w; comments := comments w;
     attachments := attachments w; outbox := outbox w;
     messages := messages w; entered := entered w |}.

Definition set_merged (f : gmap Z Task → gmap Z Task) (w : World) : World :=
  {| tasks := tasks w; merged := f (merged w); comments := comments w;
     attachments := attachments w; outbox := outbox w;
     messages := messages w; entered := entered w |}.

Definition set_comments (f : gmap Z Comment → gmap Z Comment) (w : World) : World :=
  {| tasks := tasks w; merged := merged w; comments := f (comments w);
     attachments := attachments w; outbox := outbox w;
     messages := messages w; entered := entered w |}.

Definition set_attachments (f : gmap Z Attachment → gmap Z Attachment)
    (w : World) : World :=
  {| tasks := tasks w; merged := merged w; comments := comments w;
     attachments := f (attachments w); outbox := outbox w;
     messages := messages w; entered := entered w |}.

Definition send_mail (e : Email) (w : World) : World :=
  {| tasks := tasks w; merged := merged w; comments := comments w;
     attachments := attachments w; outbox := e :: outbox w;
     messages := messages w; entered := entered w |}.

(** [messages.success(request, text)] *)
Definition messages_success (text : string) (w : World) : World :=
  {| tasks := tasks w; merged := merged w; comments := comments w;
     attachments := attachments w; outbox := outbox w;
     messages := messages w ++ [text]; entered := entered w |}.

(** Not in the source: notes that the request went into a workflow. *)
Definition enter (k : Workflow) (w : World) : World :=
  {| tasks := tasks w; merged := merged w; comments := comments w;
     attachments := attachments w; outbox := outbox w;
     messages := messages w; entered := entered w ++ [k] |}.

(** The primary key the database gives the next row of a table: one
    above the largest key in use. *)
Definition next_pk {A} (table : gmap Z A) : Z :=
  1 + foldr Z.max 0 (map_to_list table).*1.

(** [obj.save()] on a row that has no key yet. *)
Definition Comment_save (c : Comment) (w : World) : Z * World :=
  let pk := next_pk (comments w) in
  (pk, set_comments <[pk := c]> w).

Definition Attachment_save (a : Attachment) (w : World) : World :=
  set_attachments <[next_pk (attachments w) := a]> w.

(** [obj.save()] on a row that was loaded under key [pk]. *)
Definition Task_save (pk : Z) (t : Task) (w : World) : World :=
  set_tasks <[pk := t]> w.

(** ** The sanitiser *)

(** Modelled from the documentation of [bleach]: [bleach.clean(text,
    strip=True)] with the defaults for every other argument.  The text
    is read as an HTML fragment by the states of the HTML tokenizer
    (data, tags, attributes, comments); an element that is not in
    [ALLOWED_TAGS] loses its tags and keeps its text ([strip=True]); an
    attribute stays when [ALLOWED_ATTRIBUTES] lists it for its element
    and, for a link, when its protocol is in [ALLOWED_PROTOCOLS];
    comments go ([strip_comments=True]); what is left is written back
    with the text escaped.  A tag that the text ends in the middle of
    is text.  Outside the model: the tree builder of the parser (which
    closes the elements the text leaves open), the table of named
    character references (any [&name;] counts as one), and the raw text
    of [script] and [style] elements. *)
Module Bleach.

Local Abbreviation ascii := Ascii.ascii.
Local Abbreviation ascii_of_N := Ascii.ascii_of_N.
Local Abbreviation N_of_ascii := Ascii.N_of_ascii.

Definition chars (s : string) : list ascii := String.list_ascii_of_string s.

Definition ALLOWED_TAGS : list (list ascii) :=
  chars <$> ["a"; "abbr"; "acronym"; "b"; "blockquote"; "code"; "em"; "i";
             "li"; "ol"; "strong"; "ul"].

Definition ALLOWED_ATTRIBUTES : list (list ascii * list (list ascii)) :=
  [(chars "a", [chars "href"; chars "title"]);
   (chars "abbr", [chars "title"]);
   (chars "acronym", [chars "title"])].

Definition ALLOWED_PROTOCOLS : list (list ascii) :=
  chars <$> ["http"; "https"; "mailto"].

(** *** Characters *)

Definition code (c : ascii) : N := N_of_ascii c.
Definition is_code (n : N) (c : ascii) : bool := N.eqb (code c) n.

Definition lt_sign : ascii := ascii_of_N 60.
Definition gt_sign : ascii := ascii_of_N 62.
Definition amp : ascii := ascii_of_N 38.
Definition quot : ascii := ascii_of_N 34.
Definition apos : ascii := ascii_of_N 39.
Definition slash : ascii := ascii_of_N 47.
Definition space : ascii := ascii_of_N 32.
Definition equals : ascii := ascii_of_N 61.

Definition is_upper (c : ascii) : bool := N.leb 65 (code c) && N.leb (code c) 90.
Definition is_lower (c : ascii) : bool := N.leb 97 (code c) && N.leb (code c) 122.
Definition is_letter (c : ascii) : bool := is_upper c || is_lower c.
Definition is_digit (c : ascii) : bool := N.leb 48 (code c) && N.leb (code c) 57.
Definition is_space (c : ascii) : bool :=
  is_code 9 c || is_code 10 c || is_code 12 c || is_code 13 c || is_code 32 c.
Definition lower (c : ascii) : ascii :=
  if is_upper c then ascii_of_N (code c + 32) else c.

(** *** The tokenizer *)

Record Tag := {
  closing : bool;
  name : list ascii;
  attributes : list (list ascii * list ascii)
}.

Inductive Token :=
| Characters (data : list ascii)
| StartTag (name : list ascii) (attributes : list (list ascii * list ascii))
| EndTag (name : list ascii)
| CommentToken.

Inductive State :=
| Data
| TagOpen
| EndTagOpen
| TagName (t : Tag)
| BeforeAttributeName (t : Tag)
| AttributeName (t : Tag) (k : list ascii)
| AfterAttributeName (t : Tag) (k : list ascii)
| BeforeAttributeValue (t : Tag) (k : list ascii)
| AttributeValue (quote : option ascii) (t : Tag) (k v : list ascii)
| AfterAttributeValue (t : Tag)
| SelfClosingStartTag (t : Tag)
| MarkupDeclarationOpen (dash_seen : bool)
| BogusComment
| CommentBody (dashes : nat).

Definition new_tag (is_closing : bool) (c : ascii) : Tag :=
  {| closing := is_closing; name := [lower c]; attributes := [] |}.

Definition name_more (t : Tag) (c : ascii) : Tag :=
  {| closing := closing t; name := name t ++ [lower c];
     attributes := attributes t |}.

(** The first attribute of a name wins. *)
Definition add_attribute (t : Tag) (k v : list ascii) : Tag :=
  if bool_decide (k ∈ (attributes t).*1) then t
  else {| closing := closing t; name := name t;
          attributes := attributes t ++ [(k, v)] |}.

Definition emit (t : Tag) : Token :=
  if closing t then EndTag (name t) else StartTag (name t) (attributes t).

(** One character: the next state, the text read since the tag or
    comment at hand began, and the tokens that are complete. *)
Definition step (st : State) (raw : list ascii) (c : ascii)
    : State * list ascii * list Token :=
  let raw' := raw ++ [c] in
  let done (t : Tag) := (Data, [], [emit t]) in
  match st with
  | Data =>
      if is_code 60 c then (TagOpen, [c], []) else (Data, [], [Characters [c]])
  | TagOpen =>
      if is_code 33 c then (MarkupDeclarationOpen false, raw', [])
      else if is_code 47 c then (EndTagOpen, raw', [])
      else if is_letter c then (TagName (new_tag false c), raw', [])
      else if is_code 63 c then (BogusComment, raw', [])
      else if is_code 60 c then (TagOpen, [c], [Characters raw])
      else (Data, [], [Characters raw'])
  | EndTagOpen =>
      if is_letter c then (TagName (new_tag true c), raw', [])
      else if is_code 62 c then (Data, [], [])
      else (BogusComment, raw', [])
  | TagName t =>
      if is_space c then (BeforeAttributeName t, raw', [])
      else if is_code 47 c then (SelfClosingStartTag t, raw', [])
      else if is_code 62 c then done t
      else (TagName (name_more t c), raw', [])
  | BeforeAttributeName t =>
      if is_space c then (st, raw', [])
      else if is_code 47 c then (SelfClosingStartTag t, raw', [])
      else if is_code 62 c then done t
      else (AttributeName t [lower c], raw', [])
  | AttributeName t k =>
      if is_space c then (AfterAttributeName t k, raw', [])
      else if is_code 47 c then (SelfClosingStartTag (add_attribute t k []), raw', [])
      else if is_code 61 c then (BeforeAttributeValue t k, raw', [])
      else if is_code 62 c then done (add_attribute t k [])
      else (AttributeName t (k ++ [lower c]), raw', [])
  | AfterAttributeName t k =>
      if is_space c then (st, raw', [])
      else if is_code 47 c then (SelfClosingStartTag (add_attribute t k []), raw', [])
      else if is_code 61 c then (BeforeAttributeValue t k, raw', [])
      else if is_code 62 c then done (add_attribute t k [])
      else (AttributeName (add_attribute t k []) [lower c], raw', [])
  | BeforeAttributeValue t k =>
      if is_space c then (st, raw', [])
      else if is_code 34 c then (AttributeValue (Some c) t k [], raw', [])
      else if is_code 39 c then (AttributeValue (Some c) t k [], raw', [])
      else if is_code 62 c then done (add_attribute t k [])
      else (AttributeValue None t k [c], raw', [])
  | AttributeValue (Some q) t k v =>
      if Ascii.eqb c q then (AfterAttributeValue (add_attribute t k v), raw', [])
      else (AttributeValue (Some q) t k (v ++ [c]), raw', [])
  | AttributeValue None t k v =>
      if is_space c then (BeforeAttributeName (add_attribute t k v), raw', [])
      else if is_code 62 c then done (add_attribute t k v)
      else (AttributeValue None t k (v ++ [c]), raw', [])
  | AfterAttributeValue t =>
      if is_space c then (BeforeAttributeName t, raw', [])
      else if is_code 47 c then (SelfClosingStartTag t, raw', [])
      else if is_code 62 c then done t
      else (AttributeName t [lower c], raw', [])
  | SelfClosingStartTag t =>
      if is_code 62 c then done t
      else if is_space c then (BeforeAttributeName t, raw', [])
      else if is_code 47 c then (st, raw', [])
      else (AttributeName t [lower c], raw', [])
  | MarkupDeclarationOpen dash_seen =>
      if is_code 45 c then
        (if dash_seen then CommentBody 2 else MarkupDeclarationOpen true, raw', [])
      else if is_code 62 c then (Data, [], [CommentToken])
      else (BogusComment, raw', [])
  | BogusComment =>
      if is_code 62 c then (Data, [], [CommentToken]) else (st, raw', [])
  | CommentBody dashes =>
      if is_code 45 c then (CommentBody (S dashes), raw', [])
      else if is_code 62 c && Nat.leb 2 dashes then (Data, [], [CommentToken])
      else (CommentBody 0, raw', [])
  end.

(** The end of the text: an unfinished comment is a comment, an
    unfinished tag is the text it was written as. *)
Definition flush (st : State) (raw : list ascii) : list Token :=
  match st with
  | Data => []
  | MarkupDeclarationOpen _ | BogusComment | CommentBody _ => [CommentToken]
  | _ => [Characters raw]
  end.

Fixpoint tokenize_from (st : State) (raw input : list ascii) : list Token :=
  match input with
  | [] => flush st raw
  | c :: rest =>
      let '(st', raw', out) := step st raw c in
      out ++ tokenize_from st' raw' rest
  end.

Definition tokenize (input : list ascii) : list Token :=
  tokenize_from Data [] input.

(** *** The filter *)

(** The protocol of a link: what stands before the first colon, when
    no slash, question mark or hash comes earlier. *)
Fixpoint scheme_from (seen value : list ascii) : option (list ascii) :=
  match value with
  | [] => None
  | c :: rest =>
      if is_code 58 c then Some seen
      else if is_code 47 c || is_code 63 c || is_code 35 c then None
      else scheme_from (seen ++ [lower c]) rest
  end.

Fixpoint drop_space (value : list ascii) : list ascii :=
  match value with
  | c :: rest => if is_space c then drop_space rest else value
  | [] => []
  end.

Definition allowed_uri (value : list ascii) : bool :=
  match scheme_from [] (drop_space value) with
  | Some scheme => bool_decide (scheme ∈ ALLOWED_PROTOCOLS)
  | None => true
  end.

Definition allowed_attribute (tag : list ascii) (kv : list ascii * list ascii)
    : bool :=
  match list_find (λ entry, entry.1 = tag) ALLOWED_ATTRIBUTES with
  | Some (_, (_, names)) =>
      bool_decide (kv.1 ∈ names)
      && (if bool_decide (kv.1 = chars "href") then allowed_uri kv.2 else true)
  | None => false
  end.

Definition sanitize_token (t : Token) : list Token :=
  match t with
  | Characters data => [Characters data]
  | StartTag n attrs =>
      if bool_decide (n ∈ ALLOWED_TAGS)
      then [StartTag n (filter (λ kv, allowed_attribute n kv = true) attrs)]
      else []
  | EndTag n => if bool_decide (n ∈ ALLOWED_TAGS) then [EndTag n] else []
  | CommentToken => []
  end.

Definition sanitize (ts : list Token) : list Token := ts ≫= sanitize_token.

(** Text that stands side by side is one text. *)
Fixpoint coalesce (ts : list Token) : list Token :=
  match ts with
  | [] => []
  | Characters a :: rest =>
      match coalesce rest with
      | Characters b :: rest' => Characters (a ++ b) :: rest'
      | rest' => Characters a :: rest'
      end
  | t :: rest => t :: coalesce rest
  end.

(** *** The serializer *)

(** Whether what follows an ampersand makes it a character reference:
    a name or [#] and digits, closed by a semicolon. *)
Fixpoint reference_from (seen : bool) (rest : list ascii) : bool :=
  match rest with
  | [] => false
  | c :: rest' =>
      if is_code 59 c then seen
      else if is_letter c || is_digit c then reference_from true rest'
      else false
  end.

Definition reference_follows (rest : list ascii) : bool :=
  match rest with
  | c :: rest' => if is_code 35 c then reference_from false rest'
                  else reference_from false rest
  | [] => false
  end.

Fixpoint escape (in_attribute : bool) (data : list ascii) : list ascii :=
  match data with
  | [] => []
  | c :: rest =>
      (if is_code 60 c then chars "&lt;"
       else if is_code 38 c then
         (if reference_follows rest then [c] else chars "&amp;")
       else if in_attribute then (if is_code 34 c then chars "&quot;" else [c])
       else if is_code 62 c then chars "&gt;"
       else [c])
      ++ escape in_attribute rest
  end.

Definition serialize_attribute (kv : list ascii * list ascii) : list ascii :=
  [space] ++ kv.1 ++ [equals; quot] ++ escape true kv.2 ++ [quot].

Definition serialize_token (t : Token) : list ascii :=
  match t with
  | Characters data => escape false data
  | StartTag n attrs => [lt_sign] ++ n ++ (attrs ≫= serialize_attribute) ++ [gt_sign]
  | EndTag n => [lt_sign; slash] ++ n ++ [gt_sign]
  | CommentToken => []
  end.

Definition serialize (ts : list Token) : list ascii := ts ≫= serialize_token.

Definition clean (text : string) : string :=
  String.string_of_list_ascii (serialize (coalesce (sanitize (tokenize (chars text))))).

(** *** What a text shows *)

(** Whether what follows an opening angle bracket is the name of an
    allowed element, as the serializer writes it: the name and then the
    end of the tag or a space, or a slash, the name and the end. *)
Definition opens_allowed_tag (rest : list ascii) : bool :=
  existsb (λ n, bool_decide (n ++ [gt_sign] `prefix_of` rest)
                || bool_decide (n ++ [space] `prefix_of` rest)
                || bool_decide (slash :: n ++ [gt_sign] `prefix_of` rest))
          ALLOWED_TAGS.

(** Every opening angle bracket of the text opens an allowed tag. *)
Fixpoint only_allowed_tags (s : list ascii) : bool :=
  match s with
  | [] => true
  | c :: rest =>
      (if is_code 60 c then opens_allowed_tag rest else true)
      && only_allowed_tags rest
  end.

(** Whether the text begins with the name, in whatever case. *)
Fixpoint begins_with (n s : list ascii) : bool :=
  match n, s with
  | [], _ => true
  | a :: n', c :: s' => Ascii.eqb a (lower c) && begins_with n' s'
  | _ :: _, [] => false
  end.

(** Whether the text has an opening angle bracket followed by the name,
    or by a slash and the name: a start or end tag of that element. *)
Fixpoint has_tag (n s : list ascii) : bool :=
  match s with
  | [] => false
  | c :: rest =>
      is_code 60 c
      && (begins_with n rest
          || match rest with
             | d :: rest' => is_code 47 d && begins_with n rest'
             | [] => false
             end)
      || has_tag n rest
  end.

End Bleach.

(** [bleach.clean(text, strip=True)] *)
Definition bleach_clean (text : string) : string := Bleach.clean text.

(** ** Settings and the code the view calls outside this file *)

Record Settings := {
  HAS_TASK_MERGE : bool;
  TODO_STAFF_ONLY : bool;
  TODO_COMMENT_CLASSES : list string;
  TODO_ALLOW_FILE_ATTACHMENTS : bool
}.

Record TaskData := {
  cleaned_title : string;
  cleaned_note : string;
  cleaned_due_date : option Z;
  cleaned_task_list : TaskList
}.

(** The forms of [todo.forms] are not part of the view.  Each
    [*_clean] is [is_valid()] followed by [save(commit=False)]: [None]
    when validation fails, otherwise the values the unsaved object
    carries.  [task_form_rejected] is the task object after an
    [is_valid()] that fails: the task form is a model form on that
    object, and validation writes the fields that did validate into it.
    [to_python] is the conversion a [ModelChoiceField] applies to the
    submitted key. *)
Class Collaborators := {
  comment_form_clean : gmap string string → gmap string string → option string;
  attachments_formset_clean :
    gmap string string → gmap string string → option (list string);
  task_form_clean : User → gmap string string → Task → option TaskData;
  task_form_rejected : User → gmap string string → Task → Task;
  to_python : string → option Z
}.

(** The double quote character, as a one-character string. *)
Definition dquote : string := String (Ascii.ascii_of_N 34) EmptyString.

Section View.

Context (settings : Settings) {collaborators : Collaborators}.

(** Modelled from the spec: [todo.utils.staff_check] is missing.
    Staff-only mode restricts every view to users flagged as staff;
    when it is off every logged-in user passes. *)
Definition staff_check (u : User) : bool :=
  if TODO_STAFF_ONLY settings then is_staff u else true.

(** Modelled from the spec: [todo.utils.user_can_read_task] is missing.
    Superusers always pass; otherwise the user must be staff (if
    staff-only mode is configured) and a member of the group that owns
    the task's list. *)
Definition user_can_read_task (t : Task) (u : User) : bool :=
  is_superuser u
  || (staff_check u && bool_decide (group (task_list t) ∈ groups u)).

(** Modelled from the spec: the thread participants of a task are the
    distinct users who have authored a comment on it. *)
Definition thread_participants (task_id : Z) (w : World) : gset Z :=
  list_to_set
    (author <$> filter (λ c, task c = task_id) (map_to_list (comments w)).*2).

(** Modelled from the spec: [todo.utils.send_email_to_thread_participants]
    is missing.  It mails the participants of the task's comment thread. *)
Definition send_email_to_thread_participants
    (task_id : Z) (msg_body : string) (u : User) (subj : string)
    (w : World) : World :=
  send_mail
    {| recipients := thread_participants task_id w;
       subject := subj; message := msg_body; sender := user_id u |} w.

(** Modelled from the spec: [todo.utils.toggle_task_completed] is
    missing.  It flips the completion flag of the task and reports
    whether the value of the flag changed. *)
Definition toggle_task_completed (task_id : Z) (w : World) : bool * World :=
  match tasks w !! task_id with
  | Some t =>
      let t' := {| title := title t; note := note t; due_date := due_date t;
                   completed := negb (completed t);
                   task_list := task_list t; merged_into := merged_into t |} in
      (negb (eqb (completed t) (completed t')), Task_save task_id t' w)
  | None => (false, w)
  end.

(** Modelled from the spec: [Task.merge_into] of [todo.models] is
    missing.  It reassigns the comments of the source to the target
    (their attachments follow them) and then marks the source as merged
    into the target.  The mark is a soft delete: the row is kept, with
    its reference to the target, and leaves the live tasks, so that the
    source is not read as a live task again. *)
Definition merge_into (task_id : Z) (t : Task) (target_id : Z) (w : World) : World :=
  let reassign (c : Comment) :=
    if bool_decide (task c = task_id)
    then {| task := target_id; author := author c; body := body c;
            date := date c |}
    else c in
  set_merged
    <[task_id :=
        {| title := title t; note := note t; due_date := due_date t;
           completed := completed t; task_list := task_list t;
           merged_into := Some target_id |}]>
    (set_tasks (delete task_id) (set_comments (fmap reassign) w)).

(** [form.save(commit=False)] of the task form writes the cleaned
    values into the instance the form was built on. *)
Definition construct_instance (d : TaskData) (t : Task) : Task :=
  {| title := cleaned_title d; note := cleaned_note d;
     due_date := cleaned_due_date d; completed := completed t;
     task_list := cleaned_task_list d; merged_into := merged_into t |}.

(** ** [handle_add_comment] *)

Definition handle_add_comment (request : Request) (task_id : Z) (t : Task)
    (comment_form : CommentForm) (attachments_formset : AttachmentFormSet)
    (w : World) : (CommentForm * AttachmentFormSet) * World :=
  if negb (truthy (POST request !! "add_comment")) then
    ((comment_form, attachments_formset), w)
  else
    let w := enter CommentSubmission w in
    let comment_form := AddEditCommentForm_bound (POST request) (FILES request) in
    match comment_form_clean (POST request) (FILES request) with
    | Some cleaned_body =>
        let comment := {| task := task_id; author := user_id (user request);
                          body := cleaned_body; date := now request |} in
        let attachments_formset :=
          AttachmentFormSet_bound (POST request) (FILES request) in
        match attachments_formset_clean (POST request) (FILES request) with
        | Some new_files =>
            let '(comment_pk, w) := Comment_save comment w in
            let w :=
              foldl (λ w f,
                       Attachment_save {| comment_id := comment_pk; file := f |} w)
                    w new_files in
            let w :=
              send_email_to_thread_participants task_id (body comment)
                (user request)
                ("New comment posted on task " +:+ dquote +:+ title t +:+ dquote)
                w in
            let w :=
              messages_success
                "Comment posted. Notification email sent to thread participants."
                w in
            ((AddEditCommentForm, AttachmentFormSet_unbound), w)
        | None => ((comment_form, attachments_formset), w)
        end
    | None => ((comment_form, attachments_formset), w)
    end.

(** ** The decorators *)

Definition View := Request → Z → World → Response * World.

(** [django.contrib.auth.decorators.user_passes_test]: the view runs
    when the test passes, otherwise the client is sent to the login
    page. *)
Definition user_passes_test (test_func : User → bool) (view_func : View) : View :=
  λ request task_id w,
    if test_func (user request) then view_func request task_id w
    else (redirect_to_login, w).

Definition login_required : View → View := user_passes_test is_authenticated.

(** ** [task_detail] *)

(** [MergeForm(request.POST).is_valid()] and [cleaned_data]: the one
    field is a required [ModelChoiceField] over [Task.objects.all()]. *)
Definition MergeForm_clean (data : gmap string string) (w : World)
    : option (Z * Task) :=
  match data !! "merge_target" with
  | Some (String _ _ as value) =>
      match to_python value with
      | Some pk =>
          match tasks w !! pk with
          | Some target => Some (pk, target)
          | None => None
          end
      | None => None
      end
  | _ => None
  end.

(** The body of the view, below its decorators.  [task.id] is
    [task_id], the key the task was fetched under. *)
Definition task_detail_view : View := λ request task_id w,
  match tasks w !! task_id with
  | None => (Http404, w)
  | Some t =>
  let comment_list := {| filter_task := task_id; order_by := "-date" |} in
  if negb (user_can_read_task t (user request)) then (PermissionDenied, w)
  else
  (* Handle task merging: leave the view, or go on with [merge_form] *)
  let merging : Response * World + option MergeForm :=
    if negb (HAS_TASK_MERGE settings) then inr None
    else if negb (truthy (POST request !! "merge_task_into")) then
      inr (Some MergeForm_unbound)
    else
      let w := enter TaskMerge w in
      let merge_form := MergeForm_bound (POST request) in
      (* the local [merge_target] is assigned only when the form is
         valid; the permission check that follows reads it either way *)
      let merge_target := MergeForm_clean (POST request) w in
      match merge_target with
      | None => inl (UnboundLocalError "merge_target", w)
      | Some (target_pk, target) =>
          if negb (user_can_read_task target (user request)) then
            inl (PermissionDenied, w)
          else
            inl (redirect (task_detail_url target_pk),
                 merge_into task_id t target_pk w)
      end in
  match merging with
  | inl left_view => left_view
  | inr merge_form =>
  (* Save submitted comments *)
  let '((comment_form, attachments_formset), w) :=
    handle_add_comment request task_id t
      AddEditCommentForm AttachmentFormSet_unbound w in
  (* Save task edits *)
  let editing : Response * World + TaskForm * Task * World :=
    if negb (truthy (POST request !! "add_edit_task")) then
      inr (AddEditTaskForm (user request) t (task_list t), t, w)
    else
      let w := enter TaskEdit w in
      match task_form_clean (user request) (POST request) t with
      | Some cleaned_data =>
          let item := construct_instance cleaned_data t in
          let item :=
            {| title := bleach_clean (cleaned_title cleaned_data);
               note := note item; due_date := due_date item;
               completed := completed item; task_list := task_list item;
               merged_into := merged_into item |} in
          let w := Task_save task_id item w in
          let w := messages_success "The task has been edited." w in
          (* [item] is the object [task]: the redirect reads the list it
             has now *)
          inl (redirect (list_detail_url (list_id (task_list item))
                                         (slug (task_list item))), w)
      | None =>
          (* nothing is saved, but [task] is the instance of the form:
             the view goes on with the object as validation left it *)
          let rejected := task_form_rejected (user request) (POST request) t in
          inr (AddEditTaskForm_bound (user request) (POST request) rejected
                 (task_list t),
               rejected, w)
      end in
  match editing with
  | inl left_view => left_view
  | inr (form, t, w) =>
  (* Mark complete *)
  if truthy (POST request !! "toggle_done") then
    let w := enter CompletionToggle w in
    let '(results_changed, w) := toggle_task_completed task_id w in
    let w :=
      if results_changed then
        messages_success
          ("Changed completion status for task " +:+ pretty task_id) w
      else w in
    (redirect (task_detail_url task_id), w)
  else
    let thedate :=
      match due_date t with Some d => d | None => now request end in
    (render "todo/task_detail.html"
       {| ctx_task := t; ctx_comment_list := comment_list; ctx_form := form;
          ctx_merge_form := merge_form; ctx_comment_form := comment_form;
          ctx_attachments_formset := attachments_formset;
          ctx_thedate := thedate;
          ctx_comment_classes := TODO_COMMENT_CLASSES settings;
          ctx_attachments_enabled := TODO_ALLOW_FILE_ATTACHMENTS settings |},
     w)
  end
  end
  end.

Definition task_detail : View :=
  login_required (user_passes_test staff_check task_detail_view).

(** What a sequence of requests to the view, each for some task,
    leaves behind. *)
Definition serve (requests : list (Request * Z)) (w : World) : World :=
  foldl (λ w hit, (task_detail hit.1 hit.2 w).2) w requests.

End View.

(** ** Fixtures for the examples *)

Module Fixtures.

Definition nonempty (v : option string) : option string :=
  match v with
  | Some (String _ _ as s) => Some s
  | _ => None
  end.

Definition home : TaskList := {| list_id := 3; slug := "home"; group := 7 |}.
Definition office : TaskList := {| list_id := 4; slug := "office"; group := 8 |}.

(** Forms that ask for a non-empty [body] (comment) or [title] (task),
    accept files whose name is not empty, and read task keys [1] to [3];
    a task form that fails has still written the note it was given. *)
Definition forms : Collaborators := {|
  comment_form_clean data files := nonempty (data !! "body");
  attachments_formset_clean data files :=
    if bool_decide (Forall (λ f, f ≠ "") (map_to_list files).*2)
    then Some (map_to_list files).*2 else None;
  task_form_clean u data t :=
    match nonempty (data !! "title") with
    | Some s =>
        Some {| cleaned_title := s; cleaned_note := default "" (data !! "note");
                cleaned_due_date := due_date t;
                cleaned_task_list := task_list t |}
    | None => None
    end;
  task_form_rejected u data t :=
    {| title := title t; note := default (note t) (data !! "note");
       due_date := due_date t; completed := completed t;
       task_list := task_list t; merged_into := merged_into t |};
  to_python s :=
    if String.eqb s "1" then Some 1
    else if String.eqb s "2" then Some 2
    else if String.eqb s "3" then Some 3 else None
|}.

Definition open_site : Settings :=
  {| HAS_TASK_MERGE := true; TODO_STAFF_ONLY := false;
     TODO_COMMENT_CLASSES := []; TODO_ALLOW_FILE_ATTACHMENTS := true |}.

Definition alice : User :=
  {| user_id := 11; is_authenticated := true; is_staff := false;
     is_superuser := false; groups := [7] |}.

Definition bob : User :=
  {| user_id := 12; is_authenticated := true; is_staff := false;
     is_superuser := false; groups := [8] |}.

Definition root : User :=
  {| user_id := 13; is_authenticated := true; is_staff := false;
     is_superuser := true; groups := [] |}.

Definition shopping : Task :=
  {| title := "shopping"; note := ""; due_date := None; completed := false;
     task_list := home; merged_into := None |}.

Definition groceries : Task :=
  {| title := "groceries"; note := ""; due_date := Some 9; completed := false;
     task_list := home; merged_into := None |}.

Definition invoices : Task :=
  {| title := "invoices"; note := ""; due_date := None; completed := true;
     task_list := office; merged_into := None |}.

Definition db : World :=
  {| tasks := {[ 1 := shopping; 2 := groceries; 3 := invoices ]};
     merged := ∅;
     comments := {[ 1 := {| task := 1; author := 12; body := "milk"; date := 1 |} ]};
     attachments := ∅; outbox := []; messages := []; entered := [] |}.

Definition post (u : User) (data files : list (string * string)) : Request :=
  {| user := u; POST := list_to_map data; FILES := list_to_map files; now := 20 |}.

End Fixtures.

(** ** More fixtures *)

Module Scenes.

(** A site without the merge feature. *)
Definition plain_site : Settings :=
  {| HAS_TASK_MERGE := false; TODO_STAFF_ONLY := false;
     TODO_COMMENT_CLASSES := []; TODO_ALLOW_FILE_ATTACHMENTS := true |}.

(** A site for staff only. *)
Definition staff_site : Settings :=
  {| HAS_TASK_MERGE := true; TODO_STAFF_ONLY := true;
     TODO_COMMENT_CLASSES := []; TODO_ALLOW_FILE_ATTACHMENTS := true |}.

(** A visitor who has not logged in. *)
Definition anonymous : User :=
  {| user_id := 0; is_authenticated := false; is_staff := false;
     is_superuser := false; groups := [] |}.

End Scenes.

(** * Properties *)

(** ** The sanitiser *)

Module BleachFacts.
Import Bleach.

Local Abbreviation ascii := Ascii.ascii.

(** A character that is not an opening angle bracket. *)
Local Abbreviation plain c := (is_code 60 c = false).

(** A token the filter lets through: text, or a tag of an allowed
    element whose attribute names hold no opening angle bracket. *)
Local Abbreviation sound t :=
  (match t with
   | StartTag n attrs =>
       n ∈ ALLOWED_TAGS ∧ Forall (λ kv, Forall (λ c, plain c) kv.1) attrs
   | EndTag n => n ∈ ALLOWED_TAGS
   | _ => True
   end).

Lemma escape_plain in_attribute data : Forall (λ c, plain c) (escape in_attribute data).
Proof.
  induction data as [|c data IH]; simpl; [constructor|].
  apply Forall_app. split; [|done].
  destruct (is_code 60 c) eqn:Hlt; [by repeat constructor|].
  destruct (is_code 38 c); [destruct (reference_follows data)|];
    [by repeat constructor|by repeat constructor|].
  destruct in_attribute; [destruct (is_code 34 c)|destruct (is_code 62 c)];
    by repeat constructor.
Qed.

Lemma allowed_name_plain n : n ∈ ALLOWED_TAGS → Forall (λ c, plain c) n.
Proof.
  intros Hn. unfold ALLOWED_TAGS in Hn. simpl in Hn.
  repeat (apply elem_of_cons in Hn as [->|Hn]; [by repeat constructor|]).
  by apply elem_of_nil in Hn.
Qed.

Lemma allowed_attribute_plain n kv :
  allowed_attribute n kv = true → Forall (λ c, plain c) kv.1.
Proof.
  unfold allowed_attribute.
  destruct (list_find _ _) as [[i [tag names]]|] eqn:Hfind; [|done].
  apply list_find_Some in Hfind as (Hentry & _ & _).
  intros [Hname _]%andb_true_iff. apply bool_decide_eq_true in Hname.
  apply list_elem_of_lookup_2 in Hentry. unfold ALLOWED_ATTRIBUTES in Hentry.
  repeat (apply elem_of_cons in Hentry as [Hentry|Hentry];
          [simplify_eq; simpl in Hname;
           repeat (apply elem_of_cons in Hname as [->|Hname];
                   [by repeat constructor|]);
           by apply elem_of_nil in Hname|]).
  by apply elem_of_nil in Hentry.
Qed.

Lemma sanitize_sound ts : Forall (λ t, sound t) (sanitize ts).
Proof.
  unfold sanitize. induction ts as [|t ts IH]; [constructor|].
  rewrite bind_cons. apply Forall_app. split; [|done].
  destruct t as [data|n attrs|n|]; simpl; [by repeat constructor| | |constructor].
  - case_bool_decide; [|constructor]. constructor; [|constructor].
    split; [done|]. apply Forall_forall. intros kv [Hkv _]%list_elem_of_filter.
    by apply allowed_attribute_plain in Hkv.
  - case_bool_decide; [|constructor]. by constructor; [|constructor].
Qed.

Lemma coalesce_sound ts : Forall (λ t, sound t) ts → Forall (λ t, sound t) (coalesce ts).
Proof.
  induction 1 as [|t ts Ht Hts IH]; simpl; [constructor|].
  destruct t; try by constructor.
  destruct (coalesce ts) as [|t' rest]; [by constructor|].
  destruct t'; try by constructor.
  constructor; [done|]. by inversion IH.
Qed.

Lemma only_allowed_tags_plain xs ys :
  Forall (λ c, plain c) xs → only_allowed_tags (xs ++ ys) = only_allowed_tags ys.
Proof.
  induction 1 as [|c xs Hc Hxs IH]; simpl; [done|].
  by rewrite Hc.
Qed.

Lemma serialize_attributes_plain attrs :
  Forall (λ kv, Forall (λ c, plain c) kv.1) attrs →
  Forall (λ c, plain c) (attrs ≫= serialize_attribute).
Proof.
  induction 1 as [|kv attrs Hkv Hattrs IH]; [constructor|].
  rewrite bind_cons. apply Forall_app. split; [|done].
  unfold serialize_attribute. repeat (apply Forall_app; split);
    try by repeat constructor. apply escape_plain.
Qed.

Lemma opens_allowed_tag_intro n rest :
  n ∈ ALLOWED_TAGS →
  n ++ [gt_sign] `prefix_of` rest ∨ n ++ [space] `prefix_of` rest
  ∨ slash :: n ++ [gt_sign] `prefix_of` rest →
  opens_allowed_tag rest = true.
Proof.
  intros Hn Hprefix. unfold opens_allowed_tag. apply existsb_exists.
  exists n. split; [by apply list_elem_of_In|].
  destruct Hprefix as [?|[?|?]];
    rewrite !orb_true_iff, !bool_decide_eq_true; auto.
Qed.

Lemma serialize_only_allowed_tags ts :
  Forall (λ t, sound t) ts → only_allowed_tags (serialize ts) = true.
Proof.
  unfold serialize. induction 1 as [|t ts Ht Hts IH]; [done|].
  rewrite bind_cons.
  destruct t as [data|n attrs|n|]; simpl in Ht |- *.
  - rewrite only_allowed_tags_plain; [done|apply escape_plain].
  - destruct Ht as [Hn Hattrs]. apply andb_true_iff. split.
    + apply (opens_allowed_tag_intro n); [done|].
      destruct attrs as [|kv attrs]; [left|right; left].
      * rewrite <- !app_assoc. simpl. apply prefix_app, prefix_cons, prefix_nil.
      * rewrite bind_cons. unfold serialize_attribute at 1.
        rewrite <- !app_assoc. simpl.
        apply prefix_app, prefix_cons, prefix_nil.
    + rewrite only_allowed_tags_plain; [done|].
      apply Forall_app. split; [by apply allowed_name_plain|].
      apply Forall_app. split; [by apply serialize_attributes_plain|].
      by repeat constructor.
  - apply andb_true_iff. split.
    + apply (opens_allowed_tag_intro n); [done|]. right. right.
      exists (ts ≫= serialize_token). simpl. by rewrite <- !app_assoc.
    + rewrite only_allowed_tags_plain; [done|]. apply Forall_app. split;
        [by apply allowed_name_plain|by repeat constructor].
  - done.
Qed.

Lemma clean_chars text :
  chars (clean text) = serialize (coalesce (sanitize (tokenize (chars text)))).
Proof. unfold clean, chars. apply String.list_ascii_of_string_of_list_ascii. Qed.

Lemma clean_only_allowed_tags text :
  only_allowed_tags (chars (clean text)) = true.
Proof.
  rewrite clean_chars.
  apply serialize_only_allowed_tags, coalesce_sound, sanitize_sound.
Qed.

Lemma opens_allowed_tag_not_script rest :
  opens_allowed_tag rest = true →
  begins_with (chars "script") rest
  || match rest with
     | d :: rest' => is_code 47 d && begins_with (chars "script") rest'
     | [] => false
     end = false.
Proof.
  unfold opens_allowed_tag. intros (n & Hn & Hprefix)%existsb_exists.
  rewrite !orb_true_iff, !bool_decide_eq_true in Hprefix.
  apply list_elem_of_In in Hn. unfold ALLOWED_TAGS in Hn. simpl in Hn.
  repeat (apply elem_of_cons in Hn as [->|Hn];
          [destruct Hprefix as [[[k ->]|[k ->]]|[k ->]]; by vm_compute|]).
  by apply elem_of_nil in Hn.
Qed.

Lemma only_allowed_tags_no_script s :
  only_allowed_tags s = true → has_tag (chars "script") s = false.
Proof.
  pose proof opens_allowed_tag_not_script as Hscript.
  remember (chars "script") as script eqn:Hname. clear Hname.
  induction s as [|c s IH]; [done|]. simpl.
  intros [Hopen Hrest]%andb_true_iff. rewrite (IH Hrest), orb_false_r.
  destruct (is_code 60 c); [|done]. simpl. by apply Hscript.
Qed.

Lemma clean_no_script text :
  has_tag (chars "script") (chars (clean text)) = false.
Proof. apply only_allowed_tags_no_script, clean_only_allowed_tags. Qed.

End BleachFacts.

(** Whatever the text, every opening angle bracket of what the
    sanitiser returns opens an allowed tag. *)
Lemma bleach_clean_only_allowed_tags text :
  Bleach.only_allowed_tags (Bleach.chars (bleach_clean text)) = true.
Proof. apply BleachFacts.clean_only_allowed_tags. Qed.

(** Whatever the text, what the sanitiser returns has no start or end
    tag of a [script] element, in whatever case it was written. *)
Lemma bleach_clean_no_script text :
  Bleach.has_tag (Bleach.chars "script") (Bleach.chars (bleach_clean text))
  = false.
Proof. apply BleachFacts.clean_no_script. Qed.

(** ** Tables and the world *)

Lemma next_pk_above {A} (table : gmap Z A) (pk : Z) (row : A) :
  table !! pk = Some row → pk < next_pk table.
Proof.
  intros Hrow. unfold next_pk.
  assert (Hin : pk ∈ (map_to_list table).*1).
  { apply list_elem_of_fmap. exists (pk, row). split; [done|].
    by apply elem_of_map_to_list. }
  revert Hin. generalize ((map_to_list table).*1). intros keys.
  induction keys as [|k keys IH]; intros Hin.
  - by apply elem_of_nil in Hin.
  - apply elem_of_cons in Hin as [->|Hin]; simpl.
    + lia.
    + specialize (IH Hin). lia.
Qed.

Lemma next_pk_fresh {A} (table : gmap Z A) : table !! next_pk table = None.
Proof.
  destruct (table !! next_pk table) as [row|] eqn:Hrow; [|done].
  apply next_pk_above in Hrow. lia.
Qed.

Section Comments.

Context {collaborators : Collaborators}.

(** The loop over the new attachments, as [handle_add_comment] runs it. *)
Local Abbreviation attach comment_pk :=
  (foldl (λ w f, Attachment_save {| comment_id := comment_pk; file := f |} w)).

(** Saving the attachments of a comment touches the attachment table only. *)
Lemma attach_frame comment_pk new_files w :
  tasks (attach comment_pk w new_files) = tasks w
  ∧ comments (attach comment_pk w new_files) = comments w
  ∧ outbox (attach comment_pk w new_files) = outbox w
  ∧ messages (attach comment_pk w new_files) = messages w
  ∧ entered (attach comment_pk w new_files) = entered w.
Proof.
  revert w. induction new_files as [|f new_files IH]; intros w; [done|].
  apply (IH (Attachment_save _ w)).
Qed.

Lemma elem_of_thread_participants task_id w u :
  u ∈ thread_participants task_id w
  ↔ ∃ pk c, comments w !! pk = Some c ∧ task c = task_id ∧ author c = u.
Proof.
  unfold thread_participants.
  rewrite elem_of_list_to_set, list_elem_of_fmap. split.
  - intros (c & -> & Hc). apply list_elem_of_filter in Hc as [Htask Hc].
    apply list_elem_of_fmap in Hc as ([pk c'] & -> & Hc).
    apply elem_of_map_to_list in Hc. by exists pk, c'.
  - intros (pk & c & Hc & Htask & <-). exists c. split; [done|].
    apply list_elem_of_filter. split; [done|].
    apply list_elem_of_fmap. exists (pk, c). split; [done|].
    by apply elem_of_map_to_list.
Qed.

(** A new comment adds its author to the thread, and nobody else. *)
Lemma thread_participants_insert task_id w pk c :
  comments w !! pk = None → task c = task_id →
  thread_participants task_id (set_comments <[pk := c]> w)
  = thread_participants task_id w ∪ {[ author c ]}.
Proof.
  intros Hfresh Htask. apply set_eq. intros u.
  rewrite elem_of_union, elem_of_singleton, !elem_of_thread_participants.
  simpl. split.
  - intros (k & c' & Hc' & Ht & Ha).
    apply lookup_insert_Some in Hc' as [[<- <-]|[Hne Hc']]; [by right|].
    left. by exists k, c'.
  - intros [(k & c' & Hc' & Ht & Ha)| ->].
    + exists k, c'. split; [|done].
      rewrite lookup_insert_ne; [done|]. intros <-. congruence.
    + exists pk, c. by rewrite lookup_insert_eq.
Qed.

(** Whatever [handle_add_comment] does, the task table is as it was. *)
Lemma handle_add_comment_tasks request task_id t cf af w :
  tasks (handle_add_comment request task_id t cf af w).2 = tasks w.
Proof.
  unfold handle_add_comment.
  destruct (truthy _); simpl; [|done].
  destruct (comment_form_clean _ _); [|done].
  destruct (attachments_formset_clean _ _) as [new_files|]; [|done].
  simpl. by rewrite (proj1 (attach_frame _ new_files _)).
Qed.

(** Nor does it touch the tasks a merge has retired. *)
Lemma attach_merged comment_pk new_files w :
  merged (attach comment_pk w new_files) = merged w.
Proof.
  revert w. induction new_files as [|f new_files IH]; intros w; [done|].
  apply (IH (Attachment_save _ w)).
Qed.

Lemma handle_add_comment_merged request task_id t cf af w :
  merged (handle_add_comment request task_id t cf af w).2 = merged w.
Proof.
  unfold handle_add_comment.
  destruct (truthy _); simpl; [|done].
  destruct (comment_form_clean _ _); [|done].
  destruct (attachments_formset_clean _ _) as [new_files|]; [|done].
  simpl. by rewrite attach_merged.
Qed.

(** It records the comment workflow exactly when [add_comment] is there. *)
Lemma handle_add_comment_entered request task_id t cf af w :
  entered (handle_add_comment request task_id t cf af w).2
  = entered w
    ++ (if truthy (POST request !! "add_comment") then [CommentSubmission]
        else []).
Proof.
  unfold handle_add_comment.
  destruct (truthy _); simpl; [|by rewrite app_nil_r].
  destruct (comment_form_clean _ _); [|done].
  destruct (attachments_formset_clean _ _) as [new_files|]; [|done].
  simpl. by rewrite (proj2 (proj2 (proj2 (proj2 (attach_frame _ new_files _))))).
Qed.

(** C10.  Without the [add_comment] field in the submitted data,
    [handle_add_comment] does nothing: it hands back the comment form
    and the attachment formset it was given, and the world it returns
    is the world it got, so no comment or attachment is saved and no
    mail is sent. *)
Theorem handle_add_comment_without_field request task_id t cf af w :
  POST request !! "add_comment" = None →
  handle_add_comment request task_id t cf af w = ((cf, af), w).
Proof. intros Habsent. unfold handle_add_comment. by rewrite Habsent. Qed.

(** C1.  When [add_comment] is submitted and the comment form or the
    attachment formset fails validation, nothing is saved (the three
    tables are as before), no mail is sent and no message is flashed;
    the caller gets the comment form bound to the submitted data, and
    the attachment formset bound to it as well when it was the one that
    failed (the formset it passed in when the comment form failed
    first). *)
Theorem handle_add_comment_all_or_nothing request task_id t cf af w :
  truthy (POST request !! "add_comment") = true →
  comment_form_clean (POST request) (FILES request) = None
  ∨ attachments_formset_clean (POST request) (FILES request) = None →
  let result := handle_add_comment request task_id t cf af w in
  tasks result.2 = tasks w
  ∧ comments result.2 = comments w
  ∧ attachments result.2 = attachments w
  ∧ outbox result.2 = outbox w
  ∧ messages result.2 = messages w
  ∧ result.1.1 = AddEditCommentForm_bound (POST request) (FILES request)
  ∧ result.1.2
    = match comment_form_clean (POST request) (FILES request) with
      | Some _ => AttachmentFormSet_bound (POST request) (FILES request)
      | None => af
      end.
Proof.
  intros Hsubmitted Hinvalid. unfold handle_add_comment.
  rewrite Hsubmitted. simpl.
  destruct (comment_form_clean _ _) as [cleaned_body|] eqn:Hcomment.
  - destruct Hinvalid as [?|Hformset]; [done|]. by rewrite Hformset.
  - done.
Qed.

(** C5.  A valid comment with one valid attachment saves exactly one
    comment, under a key that was free, on the target task and with the
    requesting user as author; it saves exactly one attachment, under a
    key that was free, whose [comment_id] is the key of that comment;
    and it sends one mail, about the task and carrying the comment's
    body, whose recipients are the distinct authors of the comments the
    task had before, together with the author of the new one. *)
Theorem handle_add_comment_persists request task_id t cf af w cleaned_body f :
  truthy (POST request !! "add_comment") = true →
  comment_form_clean (POST request) (FILES request) = Some cleaned_body →
  attachments_formset_clean (POST request) (FILES request) = Some [f] →
  let w' := (handle_add_comment request task_id t cf af w).2 in
  let comment_pk := next_pk (comments w) in
  let attachment_pk := next_pk (attachments w) in
  comments w !! comment_pk = None
  ∧ comments w'
    = <[comment_pk := {| task := task_id; author := user_id (user request);
                         body := cleaned_body; date := now request |}]>
        (comments w)
  ∧ attachments w !! attachment_pk = None
  ∧ attachments w'
    = <[attachment_pk := {| comment_id := comment_pk; file := f |}]>
        (attachments w)
  ∧ tasks w' = tasks w
  ∧ ∃ mail,
      outbox w' = mail :: outbox w
      ∧ message mail = cleaned_body
      ∧ thread_participants task_id w ⊆ recipients mail
      ∧ recipients mail
        = thread_participants task_id w ∪ {[ user_id (user request) ]}.
Proof.
  intros Hsubmitted Hcomment Hformset. unfold handle_add_comment.
  rewrite Hsubmitted, Hcomment, Hformset. simpl.
  repeat split; try apply next_pk_fresh.
  eexists. split; [reflexivity|]. simpl. split; [done|].
  unfold Attachment_save. simpl.
  pose proof (thread_participants_insert task_id w (next_pk (comments w))
    {| task := task_id; author := user_id (user request);
       body := cleaned_body; date := now request |}
    (next_pk_fresh _) eq_refl) as Hthread.
  unfold thread_participants in *. simpl in *. rewrite Hthread.
  split; [apply union_subseteq_l|done].
Qed.

End Comments.

(** [handle_add_comment_without_field] at a request that only edits the
    task. *)
Lemma handle_add_comment_without_field_witness :
  handle_add_comment (collaborators := Fixtures.forms)
    (Fixtures.post Fixtures.alice [("add_edit_task", "1"); ("title", "x")] [])
    1 Fixtures.shopping AddEditCommentForm AttachmentFormSet_unbound Fixtures.db
  = ((AddEditCommentForm, AttachmentFormSet_unbound), Fixtures.db).
Proof. apply handle_add_comment_without_field. reflexivity. Defined.

(** [handle_add_comment_all_or_nothing] at a comment whose body is fine
    and whose attachment is not. *)
Lemma handle_add_comment_all_or_nothing_witness :
  let request :=
    Fixtures.post Fixtures.alice [("add_comment", "1"); ("body", "eggs")]
      [("attachment", "")] in
  let result :=
    handle_add_comment (collaborators := Fixtures.forms) request 1
      Fixtures.shopping AddEditCommentForm AttachmentFormSet_unbound Fixtures.db in
  comments result.2 = comments Fixtures.db
  ∧ attachments result.2 = attachments Fixtures.db
  ∧ outbox result.2 = []
  ∧ result.1.2 = AttachmentFormSet_bound (POST request) (FILES request).
Proof.
  intros request result.
  pose proof (handle_add_comment_all_or_nothing (collaborators := Fixtures.forms)
    request 1 Fixtures.shopping AddEditCommentForm AttachmentFormSet_unbound
    Fixtures.db eq_refl (or_intror eq_refl))
    as (_ & Hcomments & Hattachments & Houtbox & _ & _ & Hformset).
  exact (conj Hcomments (conj Hattachments (conj Houtbox Hformset))).
Defined.

(** [handle_add_comment_persists] at a comment by alice on a task bob
    has commented on before. *)
Lemma handle_add_comment_persists_witness :
  let request :=
    Fixtures.post Fixtures.alice [("add_comment", "1"); ("body", "eggs")]
      [("attachment", "list.txt")] in
  let w' :=
    (handle_add_comment (collaborators := Fixtures.forms) request 1
       Fixtures.shopping AddEditCommentForm AttachmentFormSet_unbound
       Fixtures.db).2 in
  comments w'
  = <[2 := {| task := 1; author := 11; body := "eggs"; date := 20 |}]>
      (comments Fixtures.db)
  ∧ attachments w' = {[ 1 := {| comment_id := 2; file := "list.txt" |} ]}.
Proof.
  intros request w'.
  pose proof (handle_add_comment_persists (collaborators := Fixtures.forms)
    request 1 Fixtures.shopping AddEditCommentForm AttachmentFormSet_unbound
    Fixtures.db "eggs" "list.txt" eq_refl eq_refl eq_refl)
    as (_ & Hcomments & _ & Hattachments & _).
  exact (conj Hcomments Hattachments).
Defined.

(** ** The view *)

Section Detail.

Context (settings : Settings) {collaborators : Collaborators}.

Local Ltac run_comment request task_id t w :=
  let Hrun := fresh "Hrun" in
  pose proof (handle_add_comment_entered request task_id t
                AddEditCommentForm AttachmentFormSet_unbound w);
  pose proof (handle_add_comment_tasks request task_id t
                AddEditCommentForm AttachmentFormSet_unbound w);
  destruct (handle_add_comment request task_id t
              AddEditCommentForm AttachmentFormSet_unbound w)
    as [[? ?] ?] eqn:Hrun;
  simpl in *.

Local Ltac decided := apply (bool_decide_unpack _); vm_compute; reflexivity.

Local Ltac pick :=
  repeat first [apply sublist_nil_l | apply sublist_skip | apply sublist_cons].

Local Ltac name_run :=
  simpl; rewrite <- ?app_assoc; simpl;
  first [ eexists; split; [reflexivity|]
        | exists []; split; [by rewrite app_nil_r|] ];
  split;
  [ first [ by left | right; pick ]
  | intros ? ? ?; first [ discriminate | decided ] ].

(** C2, as the view has it.  The workflows a request enters are read
    off its fields.  A request that is stopped before the task is read
    enters none.  With the merge feature on, a request with
    [merge_task_into] enters the merge and nothing else.  Any other
    request enters, in this order, the comment submission when it has
    [add_comment], the task edit when it has [add_edit_task], and the
    completion toggle when it has [toggle_done], unless its task edit
    validated and was saved, which returns before the toggle. *)
Theorem task_detail_workflows request task_id w :
  entered (task_detail settings request task_id w).2
  = entered w
    ++ match tasks w !! task_id with
       | Some t =>
           if is_authenticated (user request)
              && staff_check settings (user request)
              && user_can_read_task settings t (user request)
           then
             if HAS_TASK_MERGE settings
                && truthy (POST request !! "merge_task_into")
             then [TaskMerge]
             else
               (if truthy (POST request !! "add_comment")
                then [CommentSubmission] else [])
               ++ (if truthy (POST request !! "add_edit_task")
                   then [TaskEdit] else [])
               ++ (if truthy (POST request !! "toggle_done")
                      && negb (truthy (POST request !! "add_edit_task")
                               && match task_form_clean (user request)
                                          (POST request) t with
                                  | Some _ => true
                                  | None => false
                                  end)
                   then [CompletionToggle] else [])
           else []
       | None => []
       end.
Proof.
  unfold task_detail, login_required, user_passes_test, task_detail_view.
  destruct (is_authenticated _); simpl;
    [|destruct (tasks w !! task_id); by rewrite app_nil_r].
  destruct (staff_check _ _); simpl;
    [|destruct (tasks w !! task_id); by rewrite app_nil_r].
  destruct (tasks w !! task_id) as [t|] eqn:Htask; [|by rewrite app_nil_r].
  destruct (user_can_read_task _ _ _); simpl; [|by rewrite app_nil_r].
  destruct (HAS_TASK_MERGE settings); simpl.
  - destruct (truthy (POST request !! "merge_task_into")); simpl.
    + destruct (MergeForm_clean _ _) as [[target_pk target]|]; [|done].
      by destruct (user_can_read_task _ _ _).
    + run_comment request task_id t w.
      destruct (truthy (POST request !! "add_comment")),
        (truthy (POST request !! "add_edit_task")); simpl;
        try destruct (task_form_clean _ _ _); simpl;
        destruct (truthy (POST request !! "toggle_done")); simpl;
        unfold toggle_task_completed; simpl; rewrite ?H0, ?Htask; simpl;
        rewrite ?Bool.eqb_negb2; simpl; rewrite H;
        by rewrite <- ?app_assoc, ?app_nil_r.
  - run_comment request task_id t w.
    destruct (truthy (POST request !! "add_comment")),
      (truthy (POST request !! "add_edit_task")); simpl;
      try destruct (task_form_clean _ _ _); simpl;
      destruct (truthy (POST request !! "toggle_done")); simpl;
      unfold toggle_task_completed; simpl; rewrite ?H0, ?Htask; simpl;
      rewrite ?Bool.eqb_negb2; simpl; rewrite H;
      by rewrite <- ?app_assoc, ?app_nil_r.
Qed.

(** C3, as the view has it.  A user who is not a superuser and not a
    member of the group that owns the task's list never gets the page
    of an existing task: past the login and staff gates the view
    answers forbidden, and a request the gates stop is sent to the
    login page.  Nothing changes in either case. *)
Theorem task_detail_forbidden request task_id w t :
  tasks w !! task_id = Some t →
  is_superuser (user request) = false →
  group (task_list t) ∉ groups (user request) →
  task_detail settings request task_id w
  = (if is_authenticated (user request) && staff_check settings (user request)
     then PermissionDenied else redirect_to_login, w).
Proof.
  intros Htask Hsuper Hmember.
  unfold task_detail, login_required, user_passes_test, task_detail_view.
  destruct (is_authenticated _); [|done].
  destruct (staff_check _ _) eqn:Hstaff; [|done].
  rewrite Htask. unfold user_can_read_task.
  by rewrite Hsuper, Hstaff, bool_decide_eq_false_2.
Qed.

(** A merge request whose form does not validate leaves the local
    [merge_target] unassigned, and the permission check on the target
    then reads it. *)
Lemma merge_form_invalid_raises request task_id w t :
  is_authenticated (user request) = true →
  staff_check settings (user request) = true →
  tasks w !! task_id = Some t →
  user_can_read_task settings t (user request) = true →
  HAS_TASK_MERGE settings = true →
  truthy (POST request !! "merge_task_into") = true →
  MergeForm_clean (POST request) w = None →
  task_detail settings request task_id w
  = (UnboundLocalError "merge_target", enter TaskMerge w).
Proof.
  intros Hlogin Hstaff Htask Hread Hfeature Hmerge Hinvalid.
  unfold task_detail, login_required, user_passes_test, task_detail_view.
  rewrite Hlogin, Hstaff, Htask, Hread, Hfeature, Hmerge. simpl.
  unfold MergeForm_clean in *. simpl. by rewrite Hinvalid.
Qed.

(** C7.  A merge request whose target the acting user cannot read is
    answered forbidden, and the merge has not started: tasks, comments
    and attachments are as before and no mail is sent. *)
Theorem merge_unreadable_target_rejected request task_id w t target_pk target :
  is_authenticated (user request) = true →
  staff_check settings (user request) = true →
  tasks w !! task_id = Some t →
  HAS_TASK_MERGE settings = true →
  truthy (POST request !! "merge_task_into") = true →
  MergeForm_clean (POST request) w = Some (target_pk, target) →
  user_can_read_task settings target (user request) = false →
  let result := task_detail settings request task_id w in
  result.1 = PermissionDenied
  ∧ tasks result.2 = tasks w
  ∧ comments result.2 = comments w
  ∧ attachments result.2 = attachments w
  ∧ outbox result.2 = outbox w.
Proof.
  intros Hlogin Hstaff Htask Hfeature Hmerge Htarget Hread.
  unfold task_detail, login_required, user_passes_test, task_detail_view.
  rewrite Hlogin, Hstaff, Htask.
  destruct (user_can_read_task settings t (user request)); [|done].
  rewrite Hfeature, Hmerge. simpl.
  unfold MergeForm_clean in *. simpl. rewrite Htarget.
  by rewrite Hread.
Qed.

(** ** Merged tasks *)

(** One request, whatever it asks and for whichever task, leaves a
    retired task retired: it is not back among the live tasks, and its
    row is the one the merge kept. *)
Lemma task_detail_stays_retired request task_id w A row :
  tasks w !! A = None → merged w !! A = Some row →
  tasks (task_detail settings request task_id w).2 !! A = None
  ∧ merged (task_detail settings request task_id w).2 !! A = Some row.
Proof.
  intros Hgone Hrow.
  unfold task_detail, login_required, user_passes_test, task_detail_view.
  destruct (is_authenticated _); [|done].
  destruct (staff_check _ _); [|done].
  destruct (tasks w !! task_id) as [t|] eqn:Htask; [|done].
  assert (Hother : task_id ≠ A) by congruence.
  destruct (user_can_read_task _ _ _); [|done]. simpl.
  destruct (HAS_TASK_MERGE settings); simpl.
  - destruct (truthy (POST request !! "merge_task_into")); simpl.
    + destruct (MergeForm_clean _ _) as [[target_pk target]|]; [|done].
      destruct (user_can_read_task _ _ _); simpl; [|done].
      by rewrite lookup_delete_ne, lookup_insert_ne.
    + pose proof (handle_add_comment_merged request task_id t
                    AddEditCommentForm AttachmentFormSet_unbound w) as Hmerged.
      run_comment request task_id t w.
      destruct (truthy (POST request !! "add_edit_task")); simpl;
        try destruct (task_form_clean _ _ _); simpl;
        try destruct (truthy (POST request !! "toggle_done")); simpl;
        unfold toggle_task_completed; simpl; rewrite ?H0, ?Htask; simpl;
        rewrite ?Bool.eqb_negb2; simpl; rewrite ?H0, ?Hmerged;
        by rewrite ?lookup_insert_ne.
  - pose proof (handle_add_comment_merged request task_id t
                  AddEditCommentForm AttachmentFormSet_unbound w) as Hmerged.
    run_comment request task_id t w.
    destruct (truthy (POST request !! "add_edit_task")); simpl;
      try destruct (task_form_clean _ _ _); simpl;
      try destruct (truthy (POST request !! "toggle_done")); simpl;
      unfold toggle_task_completed; simpl; rewrite ?H0, ?Htask; simpl;
      rewrite ?Bool.eqb_negb2; simpl; rewrite ?H0, ?Hmerged;
      by rewrite ?lookup_insert_ne.
Qed.

Lemma serve_stays_retired requests w A row :
  tasks w !! A = None → merged w !! A = Some row →
  tasks (serve settings requests w) !! A = None
  ∧ merged (serve settings requests w) !! A = Some row.
Proof.
  revert w. induction requests as [|hit requests IH]; intros w Hgone Hrow;
    [done|].
  destruct (task_detail_stays_retired hit.1 hit.2 w A row Hgone Hrow)
    as [Hgone' Hrow'].
  apply (IH _ Hgone' Hrow').
Qed.

(** A merge request that validates, from a user who reads both tasks,
    is the merge of the viewed task into the chosen one. *)
Lemma task_detail_merge request A w t B target :
  is_authenticated (user request) = true →
  staff_check settings (user request) = true →
  tasks w !! A = Some t →
  user_can_read_task settings t (user request) = true →
  HAS_TASK_MERGE settings = true →
  truthy (POST request !! "merge_task_into") = true →
  MergeForm_clean (POST request) w = Some (B, target) →
  user_can_read_task settings target (user request) = true →
  task_detail settings request A w
  = (redirect (task_detail_url B), merge_into A t B (enter TaskMerge w)).
Proof.
  intros Hlogin Hstaff Htask Hread Hfeature Hmerge Hvalid Htarget.
  unfold task_detail, login_required, user_passes_test, task_detail_view.
  rewrite Hlogin, Hstaff, Htask, Hread, Hfeature, Hmerge. simpl.
  unfold MergeForm_clean in *. simpl. rewrite Hvalid. by rewrite Htarget.
Qed.

(** The merge moves the comments: those of the source are on the
    target afterwards, the others stay where they were. *)
Lemma merge_into_moves_comments A t B w pk c :
  comments w !! pk = Some c →
  ∃ c', comments (merge_into A t B w) !! pk = Some c'
        ∧ author c' = author c ∧ body c' = body c
        ∧ task c' = (if bool_decide (task c = A) then B else task c).
Proof.
  intros Hc. unfold merge_into. simpl. rewrite lookup_fmap, Hc. simpl.
  eexists. split; [done|]. by case_bool_decide.
Qed.

(** C6.  After [A] is merged into [B], and after any further requests
    to the view, [A] is not among the live tasks and its row is the
    retired one that refers to [B]; so the view answers every request
    for [A], whoever sends it and whatever it submits, with not-found
    (or with the login redirect, when the sender does not pass the
    gates), renders nothing and changes nothing. *)
Theorem merged_task_never_live A t B w requests request :
  let later := serve settings requests (merge_into A t B w) in
  tasks later !! A = None
  ∧ (∃ row, merged later !! A = Some row ∧ merged_into row = Some B)
  ∧ task_detail settings request A later
    = (if is_authenticated (user request)
          && staff_check settings (user request)
       then Http404 else redirect_to_login, later).
Proof.
  intros later.
  destruct (serve_stays_retired requests (merge_into A t B w) A
              {| title := title t; note := note t; due_date := due_date t;
                 completed := completed t; task_list := task_list t;
                 merged_into := Some B |}) as [Hgone Hrow].
  { unfold merge_into. simpl. apply lookup_delete_eq. }
  { unfold merge_into. simpl. apply lookup_insert_eq. }
  fold later in Hgone, Hrow. split; [done|]. split; [by eexists|].
  unfold task_detail, login_required, user_passes_test, task_detail_view.
  rewrite Hgone.
  destruct (is_authenticated _); [|done]. by destruct (staff_check _ _).
Qed.

(** ** Task edit *)

(** C8.  A task-edit submission that validates (from a user the gates
    and the permission check let through, in a request that does not
    also start a merge) saves the task with the title the sanitiser
    returns for the submitted title.  In the saved title every opening
    angle bracket opens a tag of an allowed element, so it has no start
    or end tag of a [script] element.  The response redirects to the
    list the saved task belongs to. *)
Theorem task_edit_sanitizes_and_redirects request task_id w t cleaned_data :
  is_authenticated (user request) = true →
  staff_check settings (user request) = true →
  tasks w !! task_id = Some t →
  user_can_read_task settings t (user request) = true →
  HAS_TASK_MERGE settings && truthy (POST request !! "merge_task_into") = false →
  truthy (POST request !! "add_edit_task") = true →
  task_form_clean (user request) (POST request) t = Some cleaned_data →
  let result := task_detail settings request task_id w in
  ∃ saved,
    tasks result.2 !! task_id = Some saved
    ∧ title saved = bleach_clean (cleaned_title cleaned_data)
    ∧ Bleach.only_allowed_tags (Bleach.chars (title saved)) = true
    ∧ Bleach.has_tag (Bleach.chars "script") (Bleach.chars (title saved))
      = false
    ∧ note saved = cleaned_note cleaned_data
    ∧ result.1
      = redirect (list_detail_url (list_id (task_list saved))
                                  (slug (task_list saved))).
Proof.
  intros Hlogin Hstaff Htask Hread Hmerge Hedit Hvalid.
  unfold task_detail, login_required, user_passes_test, task_detail_view.
  rewrite Hlogin, Hstaff, Htask, Hread. simpl.
  destruct (HAS_TASK_MERGE settings); simpl in *.
  - rewrite Hmerge. simpl. run_comment request task_id t w.
    rewrite Hedit, Hvalid. simpl. eexists.
    rewrite lookup_insert_eq. split; [done|]. simpl. split; [done|].
    split; [apply bleach_clean_only_allowed_tags|].
    split; [apply bleach_clean_no_script|done].
  - run_comment request task_id t w.
    rewrite Hedit, Hvalid. simpl. eexists.
    rewrite lookup_insert_eq. split; [done|]. simpl. split; [done|].
    split; [apply bleach_clean_only_allowed_tags|].
    split; [apply bleach_clean_no_script|done].
Qed.

(** ** Completion toggle *)

Local Abbreviation toggled t :=
  {| title := title t; note := note t; due_date := due_date t;
     completed := negb (completed t); task_list := task_list t;
     merged_into := merged_into t |}.

Local Abbreviation changed task_id :=
  ("Changed completion status for task " +:+ pretty task_id).

(** A request that asks for the toggle and for nothing else. *)
Lemma task_detail_toggle request task_id w t :
  is_authenticated (user request) = true →
  staff_check settings (user request) = true →
  tasks w !! task_id = Some t →
  user_can_read_task settings t (user request) = true →
  HAS_TASK_MERGE settings && truthy (POST request !! "merge_task_into") = false →
  truthy (POST request !! "add_comment") = false →
  truthy (POST request !! "add_edit_task") = false →
  truthy (POST request !! "toggle_done") = true →
  task_detail settings request task_id w
  = (redirect (task_detail_url task_id),
     messages_success (changed task_id)
       (Task_save task_id (toggled t) (enter CompletionToggle w))).
Proof.
  intros Hlogin Hstaff Htask Hread Hmerge Hcomment Hedit Htoggle.
  unfold task_detail, login_required, user_passes_test, task_detail_view.
  rewrite Hlogin, Hstaff, Htask, Hread. simpl.
  unfold handle_add_comment. rewrite Hcomment, Hedit, Htoggle. simpl.
  unfold toggle_task_completed. simpl. rewrite Htask. simpl.
  rewrite Bool.eqb_negb2. simpl.
  destruct (HAS_TASK_MERGE settings); simpl in *; [by rewrite Hmerge|done].
Qed.

(** C9, as the view has it.  Two toggle requests in a row leave the
    task table as it was, so the task is back in its completion state;
    each of the two flips the flag, and each of the two reports the
    change with its message. *)
Theorem toggle_twice request task_id w t :
  is_authenticated (user request) = true →
  staff_check settings (user request) = true →
  tasks w !! task_id = Some t →
  user_can_read_task settings t (user request) = true →
  HAS_TASK_MERGE settings && truthy (POST request !! "merge_task_into") = false →
  truthy (POST request !! "add_comment") = false →
  truthy (POST request !! "add_edit_task") = false →
  truthy (POST request !! "toggle_done") = true →
  let first := task_detail settings request task_id w in
  let second := task_detail settings request task_id first.2 in
  completed <$> tasks first.2 !! task_id = Some (negb (completed t))
  ∧ tasks second.2 = tasks w
  ∧ messages first.2 = messages w ++ [changed task_id]
  ∧ messages second.2 = messages first.2 ++ [changed task_id].
Proof.
  intros Hlogin Hstaff Htask Hread Hmerge Hcomment Hedit Htoggle first second.
  subst first second.
  rewrite (task_detail_toggle request task_id w t) by done. simpl.
  rewrite (task_detail_toggle request task_id _ (toggled t));
    [|done|done|simpl; by rewrite lookup_insert_eq|done|done|done|done|done].
  simpl. rewrite lookup_insert_eq. split; [done|]. split; [|done].
  rewrite insert_insert_eq. apply insert_id.
  rewrite Htask. f_equal. destruct t; simpl. by rewrite Bool.negb_involutive.
Qed.

End Detail.

(** Against C2 as the specification words it: a request that carries both [add_comment] and
    [toggle_done] saves the comment and flips the flag. *)
Lemma task_detail_comment_and_toggle :
  let request :=
    Fixtures.post Fixtures.alice
      [("add_comment", "1"); ("body", "eggs"); ("toggle_done", "1")] [] in
  let w' :=
    (task_detail Fixtures.open_site (collaborators := Fixtures.forms)
       request 1 Fixtures.db).2 in
  entered w' = [CommentSubmission; CompletionToggle]
  ∧ comments w' !! 2
    = Some {| task := 1; author := 11; body := "eggs"; date := 20 |}
  ∧ completed <$> tasks w' !! 1 = Some true
  ∧ ¬ (∃ ran, entered w' = entered Fixtures.db ++ ran ∧ (length ran ≤ 1)%nat).
Proof.
  intros request w'.
  assert (Hentered : entered w' = [CommentSubmission; CompletionToggle])
    by (vm_compute; reflexivity).
  split; [done|]. split; [vm_compute; reflexivity|].
  split; [vm_compute; reflexivity|].
  intros (ran & Hran & Hlen). rewrite Hentered in Hran. simpl in Hran.
  subst ran. simpl in Hlen. lia.
Qed.

(** Against C3 as the specification words it.  On a site for staff
    only, bob, who is neither staff nor a superuser nor a member of the
    group of the task, is sent to the login page by the staff gate: the
    answer is not forbidden.  And on an open site a superuser who is
    neither staff nor a member gets the page. *)
Lemma task_detail_not_forbidden :
  (is_staff Fixtures.bob = false
   ∧ is_superuser Fixtures.bob = false
   ∧ (group (task_list Fixtures.shopping) ∉ groups Fixtures.bob)
   ∧ tasks Fixtures.db !! 1 = Some Fixtures.shopping
   ∧ (task_detail Scenes.staff_site (collaborators := Fixtures.forms)
        (Fixtures.post Fixtures.bob [] []) 1 Fixtures.db).1
     = redirect_to_login
   ∧ (task_detail Scenes.staff_site (collaborators := Fixtures.forms)
        (Fixtures.post Fixtures.bob [] []) 1 Fixtures.db).1
     ≠ PermissionDenied)
  ∧ (is_staff Fixtures.root = false
     ∧ (group (task_list Fixtures.shopping) ∉ groups Fixtures.root)
     ∧ (task_detail Fixtures.open_site (collaborators := Fixtures.forms)
          (Fixtures.post Fixtures.root [] []) 1 Fixtures.db).1
       ≠ PermissionDenied
     ∧ ∃ context,
         (task_detail Fixtures.open_site (collaborators := Fixtures.forms)
            (Fixtures.post Fixtures.root [] []) 1 Fixtures.db).1
         = render "todo/task_detail.html" context
         ∧ ctx_task context = Fixtures.shopping).
Proof.
  split.
  - split; [done|]. split; [done|]. split.
    { intros Hin. apply list_elem_of_singleton in Hin. discriminate. }
    split; [vm_compute; reflexivity|]. split; [vm_compute; reflexivity|].
    vm_compute. discriminate.
  - split; [done|]. split; [by apply not_elem_of_nil|]. split.
    + vm_compute. discriminate.
    + eexists. split; [vm_compute; reflexivity|reflexivity].
Qed.

(** [task_detail_forbidden] at bob, who is no member of the group of
    alice's list. *)
Lemma task_detail_forbidden_witness :
  (task_detail Fixtures.open_site (collaborators := Fixtures.forms)
     (Fixtures.post Fixtures.bob [] []) 1 Fixtures.db).1
  = PermissionDenied.
Proof.
  assert (Hmember : group (task_list Fixtures.shopping) ∉ groups Fixtures.bob).
  { intros Hin. apply list_elem_of_singleton in Hin. discriminate. }
  exact (f_equal fst
    (task_detail_forbidden Fixtures.open_site (collaborators := Fixtures.forms)
       (Fixtures.post Fixtures.bob [] []) 1 Fixtures.db Fixtures.shopping
       eq_refl eq_refl Hmember)).
Defined.

(** C4.  With the merge feature on, a reader of task [1] who submits
    [merge_task_into] without a merge target gets the unassigned local
    as an error, not the form with its messages. *)
Theorem merge_without_target_raises :
  task_detail Fixtures.open_site (collaborators := Fixtures.forms)
    (Fixtures.post Fixtures.alice [("merge_task_into", "1")] []) 1 Fixtures.db
  = (UnboundLocalError "merge_target", enter TaskMerge Fixtures.db).
Proof.
  apply (merge_form_invalid_raises _ _ _ _ Fixtures.shopping); reflexivity.
Qed.

(** [merge_unreadable_target_rejected] at alice, who reads task [1] and
    asks to merge it into task [3] of a list she is no member of. *)
Lemma merge_unreadable_target_rejected_witness :
  let result :=
    task_detail Fixtures.open_site (collaborators := Fixtures.forms)
      (Fixtures.post Fixtures.alice
         [("merge_task_into", "1"); ("merge_target", "3")] [])
      1 Fixtures.db in
  result.1 = PermissionDenied ∧ comments result.2 = comments Fixtures.db.
Proof.
  intros result.
  pose proof (merge_unreadable_target_rejected Fixtures.open_site
    (collaborators := Fixtures.forms)
    (Fixtures.post Fixtures.alice
       [("merge_task_into", "1"); ("merge_target", "3")] [])
    1 Fixtures.db Fixtures.shopping 3 Fixtures.invoices
    eq_refl eq_refl eq_refl eq_refl eq_refl eq_refl eq_refl)
    as (Hresponse & _ & Hcomments & _).
  exact (conj Hresponse Hcomments).
Defined.

(** After alice has merged task [1] into task [2], the comment task
    [1] had is on task [2], the row of task [1] is kept with its
    reference to task [2], and a request for task [1] is answered
    not-found, also when it submits the toggle. *)
Example merged_task_is_not_found :
  let after :=
    (task_detail Fixtures.open_site (collaborators := Fixtures.forms)
       (Fixtures.post Fixtures.alice
          [("merge_task_into", "1"); ("merge_target", "2")] [])
       1 Fixtures.db) in
  after.1 = redirect (task_detail_url 2)
  ∧ task <$> comments after.2 !! 1 = Some 2
  ∧ merged_into <$> merged after.2 !! 1 = Some (Some 2)
  ∧ task_detail Fixtures.open_site (collaborators := Fixtures.forms)
      (Fixtures.post Fixtures.alice [] []) 1 after.2
    = (Http404, after.2)
  ∧ task_detail Fixtures.open_site (collaborators := Fixtures.forms)
      (Fixtures.post Fixtures.alice [("toggle_done", "1")] []) 1 after.2
    = (Http404, after.2).
Proof.
  intros after. split; [vm_compute; reflexivity|].
  split; [vm_compute; reflexivity|]. split; [vm_compute; reflexivity|].
  split; vm_compute; reflexivity.
Qed.

(** [task_edit_sanitizes_and_redirects] at a title with a script
    element: the tags are gone from the saved title, the text they
    enclosed stays, and the redirect goes to the list of the task. *)
Lemma task_edit_sanitizes_and_redirects_witness :
  let result :=
    task_detail Fixtures.open_site (collaborators := Fixtures.forms)
      (Fixtures.post Fixtures.alice
         [("add_edit_task", "1"); ("title", "<script>alert(1)</script>milk")] [])
      1 Fixtures.db in
  title <$> tasks result.2 !! 1 = Some "alert(1)milk"
  ∧ result.1 = redirect (list_detail_url 3 "home").
Proof.
  intros result.
  pose proof (task_edit_sanitizes_and_redirects Fixtures.open_site
    (collaborators := Fixtures.forms)
    (Fixtures.post Fixtures.alice
       [("add_edit_task", "1"); ("title", "<script>alert(1)</script>milk")] [])
    1 Fixtures.db Fixtures.shopping
    {| cleaned_title := "<script>alert(1)</script>milk"; cleaned_note := "";
       cleaned_due_date := None; cleaned_task_list := Fixtures.home |}
    eq_refl eq_refl eq_refl eq_refl eq_refl eq_refl eq_refl)
    as (saved & Hsaved & Htitle & _ & _ & _ & Hresponse).
  fold result in Hsaved, Hresponse. split.
  - rewrite Hsaved. simpl. rewrite Htitle. vm_compute. reflexivity.
  - rewrite Hresponse. clear Hresponse. subst result.
    vm_compute in Hsaved. by simplify_eq.
Defined.

(** Against C9 as the specification words it: the second of two toggles puts the task back
    and reports a change all the same. *)
Lemma toggle_twice_reports_twice :
  let request := Fixtures.post Fixtures.alice [("toggle_done", "1")] [] in
  let first :=
    task_detail Fixtures.open_site (collaborators := Fixtures.forms)
      request 1 Fixtures.db in
  let second :=
    task_detail Fixtures.open_site (collaborators := Fixtures.forms)
      request 1 first.2 in
  tasks second.2 !! 1 = tasks Fixtures.db !! 1
  ∧ messages second.2
    = messages first.2 ++ ["Changed completion status for task 1"]
  ∧ ¬ (tasks second.2 !! 1 = tasks Fixtures.db !! 1
       ∧ messages second.2 = messages first.2).
Proof.
  intros request first second.
  split; [vm_compute; reflexivity|]. split; [vm_compute; reflexivity|].
  intros [_ Hsilent]. vm_compute in Hsilent. discriminate.
Qed.

(** [toggle_twice] at alice toggling task [1] twice. *)
Lemma toggle_twice_witness :
  let request := Fixtures.post Fixtures.alice [("toggle_done", "1")] [] in
  let first :=
    task_detail Fixtures.open_site (collaborators := Fixtures.forms)
      request 1 Fixtures.db in
  let second :=
    task_detail Fixtures.open_site (collaborators := Fixtures.forms)
      request 1 first.2 in
  completed <$> tasks first.2 !! 1 = Some true
  ∧ tasks second.2 = tasks Fixtures.db.
Proof.
  intros request first second.
  pose proof (toggle_twice Fixtures.open_site (collaborators := Fixtures.forms)
    request 1 Fixtures.db Fixtures.shopping
    eq_refl eq_refl eq_refl eq_refl eq_refl eq_refl eq_refl eq_refl)
    as (Hfirst & Hsecond & _).
  exact (conj Hfirst Hsecond).
Defined.

(** * Further properties of the view *)

(** ** The comment helper *)

Section CommentHelper.

Context {collaborators : Collaborators}.

Local Abbreviation attach comment_pk :=
  (foldl (λ w f, Attachment_save {| comment_id := comment_pk; file := f |} w)).

Local Abbreviation posted :=
  "Comment posted. Notification email sent to thread participants.".

(** What the loop over the new attachments does to the attachment
    table: the rows that were there stay, there is one more row for
    each file, every row that is new belongs to the comment, and every
    file has its row. *)
Lemma attach_attachments comment_pk new_files w :
  attachments w ⊆ attachments (attach comment_pk w new_files)
  ∧ size (attachments (attach comment_pk w new_files))
    = (size (attachments w) + length new_files)%nat
  ∧ (∀ k a,
       attachments (attach comment_pk w new_files) !! k = Some a →
       attachments w !! k = None →
       comment_id a = comment_pk ∧ file a ∈ new_files)
  ∧ (∀ f, f ∈ new_files →
       ∃ k, attachments w !! k = None
            ∧ attachments (attach comment_pk w new_files) !! k
              = Some {| comment_id := comment_pk; file := f |}).
Proof.
  revert w. induction new_files as [|f0 new_files IH]; intros w.
  { simpl. split; [done|]. split; [lia|]. split.
    - intros k a Hnew Hold. congruence.
    - intros f Hf. by apply elem_of_nil in Hf. }
  pose proof (next_pk_fresh (attachments w)) as Hfresh.
  set (row := {| comment_id := comment_pk; file := f0 |}).
  destruct (IH (Attachment_save row w)) as (Hkept & Hsize & Hnew & Hall).
  simpl in Hkept, Hsize, Hnew, Hall.
  assert (Hstep : attachments w ⊆ <[next_pk (attachments w) := row]> (attachments w))
    by by apply insert_subseteq.
  simpl. fold row. split; [by etrans|]. split.
  { rewrite Hsize, map_size_insert_None by done. lia. }
  split.
  - intros k a Hk Hold.
    destruct (<[next_pk (attachments w) := row]> (attachments w) !! k)
      as [a1|] eqn:Hmid.
    + pose proof (lookup_weaken _ _ _ _ Hmid Hkept) as Hk'.
      assert (a1 = a) as -> by congruence.
      apply lookup_insert_Some in Hmid as [[<- <-]|[_ Hmid]]; [|congruence].
      split; [done|]. apply elem_of_cons. by left.
    + destruct (Hnew k a Hk Hmid) as [Hid Hfile].
      split; [done|]. apply elem_of_cons. by right.
  - intros f Hf. apply elem_of_cons in Hf as [->|Hf].
    + exists (next_pk (attachments w)). split; [done|].
      apply (lookup_weaken _ _ _ _ (lookup_insert_eq _ _ _) Hkept).
    + destruct (Hall f Hf) as (k & Hmid & Hk). exists k. split; [|done].
      destruct (attachments w !! k) as [a|] eqn:Hold; [|done].
      pose proof (lookup_weaken _ _ _ _ Hold Hstep). congruence.
Qed.

(** The one path on which [handle_add_comment] saves. *)
Lemma handle_add_comment_saved request task_id t cf af w cleaned_body new_files :
  truthy (POST request !! "add_comment") = true →
  comment_form_clean (POST request) (FILES request) = Some cleaned_body →
  attachments_formset_clean (POST request) (FILES request) = Some new_files →
  handle_add_comment request task_id t cf af w
  = ((AddEditCommentForm, AttachmentFormSet_unbound),
     messages_success posted
       (send_email_to_thread_participants task_id cleaned_body (user request)
          ("New comment posted on task " +:+ dquote +:+ title t +:+ dquote)
          (attach (next_pk (comments w))
             (set_comments
                <[next_pk (comments w) :=
                    {| task := task_id; author := user_id (user request);
                       body := cleaned_body; date := now request |}]>
                (enter CommentSubmission w))
             new_files))).
Proof.
  intros Hsubmitted Hcomment Hformset. unfold handle_add_comment.
  by rewrite Hsubmitted, Hcomment, Hformset.
Qed.

(** All paths but that one save nothing. *)
Lemma handle_add_comment_unsaved request task_id t cf af w :
  truthy (POST request !! "add_comment") = false
  ∨ comment_form_clean (POST request) (FILES request) = None
  ∨ attachments_formset_clean (POST request) (FILES request) = None →
  let result := handle_add_comment request task_id t cf af w in
  tasks result.2 = tasks w ∧ comments result.2 = comments w
  ∧ attachments result.2 = attachments w ∧ outbox result.2 = outbox w
  ∧ messages result.2 = messages w.
Proof.
  intros Hno. unfold handle_add_comment.
  destruct (truthy _); simpl; [|done].
  destruct (comment_form_clean _ _); simpl; [|done].
  destruct (attachments_formset_clean _ _); simpl; [|done].
  by destruct Hno as [?|[?|?]].
Qed.

(** Whatever the request, the rows the comment and attachment tables
    had are still there, and there is at most one more mail; a mail is
    from the requesting user, about the task under the title it was
    loaded with, and only goes out for a request with [add_comment]. *)
Lemma handle_add_comment_keeps request task_id t cf af w :
  let result := handle_add_comment request task_id t cf af w in
  comments w ⊆ comments result.2
  ∧ attachments w ⊆ attachments result.2
  ∧ (outbox result.2 = outbox w
     ∨ truthy (POST request !! "add_comment") = true
       ∧ ∃ mail,
           outbox result.2 = mail :: outbox w
           ∧ sender mail = user_id (user request)
           ∧ subject mail
             = "New comment posted on task " +:+ dquote +:+ title t +:+ dquote).
Proof.
  unfold handle_add_comment.
  destruct (truthy _) eqn:Hsubmitted; simpl; [|by auto].
  destruct (comment_form_clean _ _) as [cleaned_body|]; simpl; [|by auto].
  destruct (attachments_formset_clean _ _) as [new_files|]; simpl; [|by auto].
  set (w1 := set_comments _ _).
  destruct (attach_frame (next_pk (comments w)) new_files w1)
    as (_ & Hcomments & Houtbox & _).
  destruct (attach_attachments (next_pk (comments w)) new_files w1)
    as (Hattachments & _).
  rewrite Hcomments. split; [|split].
  - apply insert_subseteq, next_pk_fresh.
  - done.
  - right. split; [done|]. eexists.
    split; [simpl; by rewrite Houtbox|done].
Qed.

(** X1.  A valid comment with any number of valid attachments leaves
    the attachments that were there as they were, adds one row for each
    submitted file and no other, and every row it adds refers to the
    comment saved by the same request.  With no file at all the comment
    is saved alone. *)
Theorem handle_add_comment_attachments
    request task_id t cf af w cleaned_body new_files :
  truthy (POST request !! "add_comment") = true →
  comment_form_clean (POST request) (FILES request) = Some cleaned_body →
  attachments_formset_clean (POST request) (FILES request) = Some new_files →
  let w' := (handle_add_comment request task_id t cf af w).2 in
  let comment_pk := next_pk (comments w) in
  is_Some (comments w' !! comment_pk)
  ∧ attachments w ⊆ attachments w'
  ∧ size (attachments w') = (size (attachments w) + length new_files)%nat
  ∧ (∀ k a, attachments w' !! k = Some a → attachments w !! k = None →
            comment_id a = comment_pk ∧ file a ∈ new_files)
  ∧ (∀ f, f ∈ new_files →
          ∃ k, attachments w !! k = None
               ∧ attachments w' !! k
                 = Some {| comment_id := comment_pk; file := f |}).
Proof.
  intros Hsubmitted Hcomment Hformset.
  rewrite (handle_add_comment_saved _ _ _ _ _ _ _ _ Hsubmitted Hcomment Hformset).
  simpl. set (w1 := set_comments _ _).
  destruct (attach_frame (next_pk (comments w)) new_files w1)
    as (_ & Hcomments & _).
  split.
  - rewrite Hcomments. subst w1. simpl. rewrite lookup_insert_eq. by eexists.
  - apply (attach_attachments (next_pk (comments w)) new_files w1).
Qed.

(** X2.  [handle_add_comment] saves a comment and sends a mail
    together or not at all.  Either the comments, the attachments, the
    outbox and the messages are all as before, or there is exactly one
    new comment, under a key that was free, by the requesting user on
    the task, and exactly one new mail, which carries the body of that
    comment. *)
Theorem handle_add_comment_comment_and_mail request task_id t cf af w :
  let result := handle_add_comment request task_id t cf af w in
  comments result.2 = comments w ∧ attachments result.2 = attachments w
  ∧ outbox result.2 = outbox w ∧ messages result.2 = messages w
  ∨ ∃ c mail,
      comments w !! next_pk (comments w) = None
      ∧ comments result.2 = <[next_pk (comments w) := c]> (comments w)
      ∧ task c = task_id ∧ author c = user_id (user request)
      ∧ outbox result.2 = mail :: outbox w
      ∧ message mail = body c
      ∧ messages result.2 = messages w ++ [posted].
Proof.
  destruct (truthy (POST request !! "add_comment")) eqn:Hsubmitted;
    [|left; apply handle_add_comment_unsaved; by left].
  destruct (comment_form_clean (POST request) (FILES request))
    as [cleaned_body|] eqn:Hcomment;
    [|left; apply handle_add_comment_unsaved; right; by left].
  destruct (attachments_formset_clean (POST request) (FILES request))
    as [new_files|] eqn:Hformset;
    [|left; apply handle_add_comment_unsaved; right; by right].
  right.
  rewrite (handle_add_comment_saved _ _ _ _ _ _ _ _ Hsubmitted Hcomment Hformset).
  simpl. set (w1 := set_comments _ _).
  destruct (attach_frame (next_pk (comments w)) new_files w1)
    as (_ & Hcomments & Houtbox & Hmessages & _).
  eexists _, _. rewrite Hcomments, Houtbox, Hmessages.
  split; [apply next_pk_fresh|]. by repeat split.
Qed.

(** X3.  For a request with [add_comment], the two forms handed back
    are the blank ones exactly when both the comment form and the
    attachment formset validated, that is, when the comment was saved;
    when either fails, the comment form handed back is the one bound to
    the submitted data. *)
Theorem handle_add_comment_blank_forms request task_id t cf af w :
  truthy (POST request !! "add_comment") = true →
  let result := handle_add_comment request task_id t cf af w in
  (result.1 = (AddEditCommentForm, AttachmentFormSet_unbound)
   ↔ is_Some (comment_form_clean (POST request) (FILES request))
     ∧ is_Some (attachments_formset_clean (POST request) (FILES request)))
  ∧ (comment_form_clean (POST request) (FILES request) = None
     ∨ attachments_formset_clean (POST request) (FILES request) = None →
     result.1.1 = AddEditCommentForm_bound (POST request) (FILES request)).
Proof.
  intros Hsubmitted. unfold handle_add_comment. rewrite Hsubmitted. simpl.
  destruct (comment_form_clean _ _) as [cleaned_body|]; simpl.
  - destruct (attachments_formset_clean _ _) as [new_files|]; simpl.
    + split; [|by intros [?|?]]. split; [by split; eexists|done].
    + split; [|done]. split; [done|]. by intros [_ [? ?]].
  - split; [|done]. split; [done|]. by intros [[? ?] _].
Qed.

End CommentHelper.

(** ** Every request *)

Section Requests.

Context (settings : Settings) {collaborators : Collaborators}.

Local Ltac open_view :=
  unfold task_detail, login_required, user_passes_test, task_detail_view.

(** Runs [handle_add_comment] on the blank forms and keeps what is
    known of the world it returns. *)
Local Ltac comment_step request task_id w :=
  match goal with
  | Hloaded : tasks w !! task_id = Some ?t |- _ =>
      pose proof (handle_add_comment_keeps request task_id t
                    AddEditCommentForm AttachmentFormSet_unbound w) as Hkeeps;
      cbv zeta in Hkeeps;
      destruct Hkeeps as (Hcomments & Hattachments & Hmail);
      pose proof (handle_add_comment_tasks request task_id t
                    AddEditCommentForm AttachmentFormSet_unbound w) as Htasks;
      destruct (handle_add_comment request task_id t
                  AddEditCommentForm AttachmentFormSet_unbound w)
        as [[cf af] w1];
      simpl in Hcomments, Hattachments, Hmail, Htasks
  end.

(** The edit block and the toggle block: a saved edit, a failed edit
    with and without the toggle, no edit with and without the toggle. *)
Local Ltac edit_and_toggle request task_id :=
  match goal with
  | Hloaded : tasks ?w !! task_id = Some ?t, Hsame : tasks _ = tasks ?w |- _ =>
      destruct (truthy (POST request !! "add_edit_task")) eqn:Hedit; simpl;
      [ destruct (task_form_clean (user request) (POST request) t)
          as [cleaned_data|] eqn:Hclean; simpl;
        [ | destruct (truthy (POST request !! "toggle_done")) eqn:Htoggle; simpl ]
      | destruct (truthy (POST request !! "toggle_done")) eqn:Htoggle; simpl ];
      unfold toggle_task_completed; simpl;
      rewrite ?Hsame, ?Hloaded; simpl; rewrite ?Bool.eqb_negb2; simpl
  end.

(** The merge block: the merge, the refusal of the target, the
    unassigned local, and the way on to the rest of the view. *)
Local Ltac merge_step request w :=
  destruct (truthy (POST request !! "merge_task_into")) eqn:Hmerge; simpl;
  [ destruct (MergeForm_clean (POST request) (enter TaskMerge w))
      as [[target_pk target]|] eqn:Hform; simpl;
    [ destruct (user_can_read_task settings target (user request))
        eqn:Htarget; simpl;
      [ unfold merge_into; simpl | ]
    | ]
  | ].

(** Every way through the view. *)
Local Ltac walk request task_id w :=
  open_view;
  destruct (is_authenticated (user request)) eqn:Hlogin;
  [ destruct (staff_check settings (user request)) eqn:Hstaff;
    [ destruct (tasks w !! task_id) as [loaded|] eqn:Htask;
      [ destruct (user_can_read_task settings loaded (user request))
          eqn:Hread; simpl;
        [ destruct (HAS_TASK_MERGE settings) eqn:Hfeature; simpl;
          [ merge_step request w;
            [ | | | comment_step request task_id w;
                    edit_and_toggle request task_id ]
          | comment_step request task_id w; edit_and_toggle request task_id ]
        | ]
      | ]
    | ]
  | ]; simpl.

(** A merge form that validates has found its target in the table. *)
Lemma MergeForm_clean_Some data w pk target :
  MergeForm_clean data w = Some (pk, target) → tasks w !! pk = Some target.
Proof.
  unfold MergeForm_clean. intros Hclean.
  destruct (data !! "merge_target") as [[|? ?]|]; [done| |done].
  destruct (to_python _) as [pk'|]; [|done].
  destruct (tasks w !! pk') as [target'|] eqn:Hrow; [|done].
  by simplify_eq.
Qed.

(** One request keeps every comment, with its author, body and date. *)
Lemma task_detail_comments_kept request task_id w k c :
  comments w !! k = Some c →
  ∃ c', comments (task_detail settings request task_id w).2 !! k = Some c'
        ∧ author c' = author c ∧ body c' = body c ∧ date c' = date c.
Proof.
  intros Hc. walk request task_id w;
    first [ by exists c
          | exists c; split; [|done]; by apply (lookup_weaken _ _ _ _ Hc Hcomments)
          | rewrite lookup_fmap, Hc; simpl; eexists; split; [done|];
            by case_bool_decide ].
Qed.

(** One request keeps every attachment as it is. *)
Lemma task_detail_attachments_kept request task_id w :
  attachments w ⊆ attachments (task_detail settings request task_id w).2.
Proof. walk request task_id w; done. Qed.

(** X4.  The view writes one task row at most, the row of the task it
    was asked for: whatever the request, every other task is afterwards
    exactly what it was. *)
Theorem task_detail_other_tasks request task_id w k :
  k ≠ task_id →
  tasks (task_detail settings request task_id w).2 !! k = tasks w !! k.
Proof.
  intros Hother. walk request task_id w; try rewrite Htasks; try done;
    first [by rewrite lookup_insert_ne | by rewrite lookup_delete_ne].
Qed.

(** X5.  No sequence of requests to the view loses a comment or an
    attachment.  Every comment stays under its key with its author,
    body and date (a merge may move it to another task), and every
    attachment stays exactly as it is. *)
Theorem serve_never_deletes requests w :
  let later := serve settings requests w in
  (∀ k c, comments w !! k = Some c →
          ∃ c', comments later !! k = Some c'
                ∧ author c' = author c ∧ body c' = body c
                ∧ date c' = date c)
  ∧ attachments w ⊆ attachments later.
Proof.
  revert w. induction requests as [|hit requests IH]; intros w.
  { simpl. split; [|done]. intros k c Hc. by exists c. }
  destruct (IH (task_detail settings hit.1 hit.2 w).2) as (Hkept & Hfiles).
  simpl. split.
  - intros k c Hc.
    destruct (task_detail_comments_kept hit.1 hit.2 w k c Hc)
      as (c1 & Hc1 & Hauthor & Hbody & Hdate).
    destruct (Hkept k c1 Hc1) as (c2 & Hc2 & Hauthor2 & Hbody2 & Hdate2).
    exists c2. split; [done|]. split; [congruence|]. split; congruence.
  - etrans; [apply task_detail_attachments_kept|done].
Qed.

(** X7.  The view sends at most one mail for a request, and only for a
    request that carries [add_comment] on a task that exists.  The mail
    comes from the requesting user, and its subject names the task
    under the title it has in the table when the request arrives, also
    when the same request goes on to change that title. *)
Theorem task_detail_mail request task_id w :
  let w' := (task_detail settings request task_id w).2 in
  outbox w' = outbox w
  ∨ ∃ t mail,
      tasks w !! task_id = Some t
      ∧ truthy (POST request !! "add_comment") = true
      ∧ outbox w' = mail :: outbox w
      ∧ sender mail = user_id (user request)
      ∧ subject mail
        = "New comment posted on task " +:+ dquote +:+ title t +:+ dquote.
Proof.
  walk request task_id w; try (by left);
    (destruct Hmail as [Hsame|(Hsubmitted & mail & Hsent & Hfrom & Hsubject)];
     [by left|right; by exists loaded, mail]).
Qed.

(** X8.  For a user past the login and staff gates the view answers
    not-found exactly when the key names no task: the lookup comes
    before the permission check, so a logged-in user who may read
    nothing still learns which keys are in use. *)
Theorem task_detail_not_found request task_id w :
  is_authenticated (user request) = true →
  staff_check settings (user request) = true →
  (task_detail settings request task_id w).1 = Http404
  ↔ tasks w !! task_id = None.
Proof.
  intros Hl Hs. walk request task_id w; try congruence; by split.
Qed.

End Requests.

(** ** Particular requests *)

Section Pages.

Context (settings : Settings) {collaborators : Collaborators}.

Local Ltac open_view :=
  unfold task_detail, login_required, user_passes_test, task_detail_view.

Local Abbreviation posted :=
  "Comment posted. Notification email sent to thread participants.".

(** X9.  A request from someone who may not read the task changes
    nothing at all, whatever fields it submits: when the user is not
    logged in, or fails the staff test, or the task is missing, or the
    permission check fails, the world is returned as it was and the
    answer is the login redirect, not-found or forbidden. *)
Theorem task_detail_unauthorised request task_id w :
  (∀ t, tasks w !! task_id = Some t →
        is_authenticated (user request) && staff_check settings (user request)
        && user_can_read_task settings t (user request) = false) →
  let result := task_detail settings request task_id w in
  result.2 = w
  ∧ (result.1 = redirect_to_login ∨ result.1 = Http404
     ∨ result.1 = PermissionDenied).
Proof.
  intros Hdenied. open_view.
  destruct (is_authenticated _); [|by auto].
  destruct (staff_check _ _); [|by auto].
  destruct (tasks w !! task_id) as [t|]; [|by auto].
  specialize (Hdenied t eq_refl). simpl in Hdenied. rewrite Hdenied. by auto.
Qed.

(** X10.  Looking at a task is read-only.  A request from a reader of
    the task that carries none of the four workflow fields returns the
    world as it was and renders the page: the task as loaded, blank
    comment and attachment forms, the unbound task form, the merge form
    only when the feature is on, and as date the due date of the task,
    or the time of the request when it has none. *)
Theorem task_detail_read_only request task_id w t :
  is_authenticated (user request) = true →
  staff_check settings (user request) = true →
  tasks w !! task_id = Some t →
  user_can_read_task settings t (user request) = true →
  HAS_TASK_MERGE settings && truthy (POST request !! "merge_task_into") = false →
  truthy (POST request !! "add_comment") = false →
  truthy (POST request !! "add_edit_task") = false →
  truthy (POST request !! "toggle_done") = false →
  task_detail settings request task_id w
  = (render "todo/task_detail.html"
       {| ctx_task := t;
          ctx_comment_list := {| filter_task := task_id; order_by := "-date" |};
          ctx_form := AddEditTaskForm (user request) t (task_list t);
          ctx_merge_form :=
            if HAS_TASK_MERGE settings then Some MergeForm_unbound else None;
          ctx_comment_form := AddEditCommentForm;
          ctx_attachments_formset := AttachmentFormSet_unbound;
          ctx_thedate := default (now request) (due_date t);
          ctx_comment_classes := TODO_COMMENT_CLASSES settings;
          ctx_attachments_enabled := TODO_ALLOW_FILE_ATTACHMENTS settings |},
     w).
Proof.
  intros Hlogin Hstaff Htask Hread Hmerge Hcomment Hedit Htoggle. open_view.
  rewrite Hlogin, Hstaff, Htask, Hread. simpl.
  unfold handle_add_comment. rewrite Hcomment, Hedit, Htoggle. simpl.
  destruct (HAS_TASK_MERGE settings); simpl in *;
    [rewrite Hmerge; simpl|]; by destruct (due_date t).
Qed.

(** X11.  With the merge feature off the [merge_task_into] field does
    nothing: whatever the request, every comment is afterwards exactly
    what it was (none is moved to another task), the view cannot fail
    on the unassigned merge target, and a page that is rendered has no
    merge form. *)
Theorem task_detail_without_merge request task_id w :
  HAS_TASK_MERGE settings = false →
  let result := task_detail settings request task_id w in
  comments w ⊆ comments result.2
  ∧ (∀ name, result.1 ≠ UnboundLocalError name)
  ∧ (∀ template context,
       result.1 = render template context → ctx_merge_form context = None).
Proof.
  intros Hoff. open_view.
  destruct (is_authenticated _); [|by repeat split].
  destruct (staff_check _ _); [|by repeat split].
  destruct (tasks w !! task_id) as [t|] eqn:Htask; [|by repeat split].
  destruct (user_can_read_task _ _ _); [|by repeat split].
  simpl. rewrite Hoff. simpl.
  pose proof (handle_add_comment_keeps request task_id t
                AddEditCommentForm AttachmentFormSet_unbound w) as Hkeeps.
  cbv zeta in Hkeeps. destruct Hkeeps as (Hcomments & _).
  pose proof (handle_add_comment_tasks request task_id t
                AddEditCommentForm AttachmentFormSet_unbound w) as Htasks.
  destruct (handle_add_comment _ _ _ _ _ _) as [[cf af] w1].
  simpl in Hcomments, Htasks.
  destruct (truthy (POST request !! "add_edit_task")); simpl;
    try destruct (task_form_clean _ _ _); simpl;
    destruct (truthy (POST request !! "toggle_done")); simpl;
    unfold toggle_task_completed; simpl; rewrite ?Htasks, ?Htask; simpl;
    rewrite ?Bool.eqb_negb2; simpl;
    (split; [done|]); (split; [done|]); by intros ? ? ?; simplify_eq.
Qed.

(** X12.  A merge request is only a merge.  With the feature on, a
    request from a reader of the task that carries [merge_task_into]
    saves no comment and no attachment, sends no mail and flashes no
    message, even when it also carries [add_comment] with a valid
    comment; it renders no page either, and ends in the unassigned
    local, in forbidden, or in the redirect to an existing target. *)
Theorem task_detail_merge_only request task_id w t :
  is_authenticated (user request) = true →
  staff_check settings (user request) = true →
  tasks w !! task_id = Some t →
  user_can_read_task settings t (user request) = true →
  HAS_TASK_MERGE settings = true →
  truthy (POST request !! "merge_task_into") = true →
  let result := task_detail settings request task_id w in
  dom (comments result.2) = dom (comments w)
  ∧ attachments result.2 = attachments w
  ∧ outbox result.2 = outbox w
  ∧ messages result.2 = messages w
  ∧ (result.1 = UnboundLocalError "merge_target"
     ∨ result.1 = PermissionDenied
     ∨ ∃ target_pk, result.1 = redirect (task_detail_url target_pk)
                    ∧ is_Some (tasks w !! target_pk)).
Proof.
  intros Hlogin Hstaff Htask Hread Hfeature Hmerge. open_view.
  rewrite Hlogin, Hstaff, Htask, Hread, Hfeature, Hmerge. simpl.
  destruct (MergeForm_clean _ _) as [[target_pk target]|] eqn:Hform; simpl;
    [|repeat split; by auto].
  destruct (user_can_read_task settings target (user request)); simpl;
    [|repeat split; by auto].
  apply MergeForm_clean_Some in Hform.
  unfold merge_into, Task_save, set_tasks, set_comments, enter.
  cbn [fst snd tasks comments attachments outbox messages].
  rewrite dom_fmap_L. repeat split. right. right. exists target_pk.
  split; [done|]. by eexists.
Qed.

(** X13.  A task edit that does not validate saves nothing and comes
    back with the form: for a request by a reader of the task, without
    a merge and without the toggle, the task table is as before and the
    page is rendered with the task form bound to the submitted data.
    The instance of that form is the task object as validation left it,
    with the fields that did validate written into it, and the page
    shows that same object, not the task as loaded. *)
Theorem task_detail_edit_invalid request task_id w t :
  is_authenticated (user request) = true →
  staff_check settings (user request) = true →
  tasks w !! task_id = Some t →
  user_can_read_task settings t (user request) = true →
  HAS_TASK_MERGE settings && truthy (POST request !! "merge_task_into") = false →
  truthy (POST request !! "add_edit_task") = true →
  task_form_clean (user request) (POST request) t = None →
  truthy (POST request !! "toggle_done") = false →
  let result := task_detail settings request task_id w in
  let rejected := task_form_rejected (user request) (POST request) t in
  tasks result.2 = tasks w
  ∧ ∃ context,
      result.1 = render "todo/task_detail.html" context
      ∧ ctx_form context
        = AddEditTaskForm_bound (user request) (POST request) rejected
            (task_list t)
      ∧ ctx_task context = rejected
      ∧ ctx_thedate context = default (now request) (due_date rejected).
Proof.
  intros Hlogin Hstaff Htask Hread Hmerge Hedit Hinvalid Htoggle. open_view.
  rewrite Hlogin, Hstaff, Htask, Hread. simpl.
  pose proof (handle_add_comment_tasks request task_id t
                AddEditCommentForm AttachmentFormSet_unbound w) as Htasks.
  destruct (HAS_TASK_MERGE settings); simpl in *; rewrite ?Hmerge; simpl;
    destruct (handle_add_comment _ _ _ _ _ _) as [[cf af] w1];
    rewrite Hedit, Hinvalid, Htoggle; simpl; (split; [done|]);
    eexists; (split; [done|]); simpl; (split; [done|]); (split; [done|]);
    by destruct (due_date _).
Qed.

(** X14.  A comment that is posted shows up as posted.  For a request
    by a reader of the task that carries [add_comment] with a valid
    comment and valid attachments, and no other workflow field, the
    comment is in the table, the task table is as before, the success
    message is flashed, and the page is rendered with blank comment and
    attachment forms, so that the text just posted is not shown again
    in the form. *)
Theorem task_detail_comment_posted
    request task_id w t cleaned_body new_files :
  is_authenticated (user request) = true →
  staff_check settings (user request) = true →
  tasks w !! task_id = Some t →
  user_can_read_task settings t (user request) = true →
  HAS_TASK_MERGE settings && truthy (POST request !! "merge_task_into") = false →
  truthy (POST request !! "add_comment") = true →
  comment_form_clean (POST request) (FILES request) = Some cleaned_body →
  attachments_formset_clean (POST request) (FILES request) = Some new_files →
  truthy (POST request !! "add_edit_task") = false →
  truthy (POST request !! "toggle_done") = false →
  let result := task_detail settings request task_id w in
  comments result.2
  = <[next_pk (comments w) :=
        {| task := task_id; author := user_id (user request);
           body := cleaned_body; date := now request |}]> (comments w)
  ∧ tasks result.2 = tasks w
  ∧ messages result.2 = messages w ++ [posted]
  ∧ ∃ context,
      result.1 = render "todo/task_detail.html" context
      ∧ ctx_comment_form context = AddEditCommentForm
      ∧ ctx_attachments_formset context = AttachmentFormSet_unbound.
Proof.
  intros Hlogin Hstaff Htask Hread Hmerge Hsubmitted Hcomment Hformset
    Hedit Htoggle. open_view.
  rewrite Hlogin, Hstaff, Htask, Hread. simpl.
  rewrite (handle_add_comment_saved _ _ _ _ _ _ _ _ Hsubmitted Hcomment Hformset).
  rewrite Hedit, Htoggle.
  destruct (attach_frame (next_pk (comments w)) new_files
              (set_comments
                 <[next_pk (comments w) :=
                     {| task := task_id; author := user_id (user request);
                        body := cleaned_body; date := now request |}]>
                 (enter CommentSubmission w)))
    as (Htasks & Hcomments & _ & Hmessages & _).
  destruct (HAS_TASK_MERGE settings); simpl in *; rewrite ?Hmerge; simpl;
    rewrite Htasks, Hcomments, Hmessages; simpl;
    repeat split; by eexists.
Qed.

(** X15.  A comment that is rejected comes back with the form.  For a
    request by a reader of the task that carries [add_comment] and
    fails on the comment form or on the attachments, and carries no
    other workflow field, the tables, the outbox and the messages are
    as before, and the page is rendered with the comment form bound to
    the submitted data. *)
Theorem task_detail_comment_rejected request task_id w t :
  is_authenticated (user request) = true →
  staff_check settings (user request) = true →
  tasks w !! task_id = Some t →
  user_can_read_task settings t (user request) = true →
  HAS_TASK_MERGE settings && truthy (POST request !! "merge_task_into") = false →
  truthy (POST request !! "add_comment") = true →
  comment_form_clean (POST request) (FILES request) = None
  ∨ attachments_formset_clean (POST request) (FILES request) = None →
  truthy (POST request !! "add_edit_task") = false →
  truthy (POST request !! "toggle_done") = false →
  let result := task_detail settings request task_id w in
  tasks result.2 = tasks w ∧ comments result.2 = comments w
  ∧ attachments result.2 = attachments w ∧ outbox result.2 = outbox w
  ∧ messages result.2 = messages w
  ∧ ∃ context,
      result.1 = render "todo/task_detail.html" context
      ∧ ctx_comment_form context
        = AddEditCommentForm_bound (POST request) (FILES request).
Proof.
  intros Hlogin Hstaff Htask Hread Hmerge Hsubmitted Hinvalid Hedit Htoggle.
  open_view. rewrite Hlogin, Hstaff, Htask, Hread. simpl.
  assert (Hback : ∃ af w1,
    handle_add_comment request task_id t
      AddEditCommentForm AttachmentFormSet_unbound w
    = ((AddEditCommentForm_bound (POST request) (FILES request), af), w1)
    ∧ tasks w1 = tasks w ∧ comments w1 = comments w
    ∧ attachments w1 = attachments w ∧ outbox w1 = outbox w
    ∧ messages w1 = messages w).
  { unfold handle_add_comment. rewrite Hsubmitted. simpl.
    destruct (comment_form_clean _ _); [|by eexists _, _].
    destruct Hinvalid as [?|Hformset]; [done|]. rewrite Hformset.
    by eexists _, _. }
  destruct Hback as (af & w1 & -> & Htasks & Hcomments & Hattachments
                     & Houtbox & Hmessages).
  rewrite Hedit, Htoggle.
  destruct (HAS_TASK_MERGE settings); simpl in *; rewrite ?Hmerge; simpl;
    repeat split; try done; by eexists.
Qed.

(** X16.  A comment and a task edit submitted together are both
    carried out, and neither disturbs the other: the comment is saved
    as it would be alone, the task is saved with the sanitised title,
    both success messages are flashed in that order, and the response
    is the redirect of the edit. *)
Theorem task_detail_comment_and_edit
    request task_id w t cleaned_body new_files cleaned_data :
  is_authenticated (user request) = true →
  staff_check settings (user request) = true →
  tasks w !! task_id = Some t →
  user_can_read_task settings t (user request) = true →
  HAS_TASK_MERGE settings && truthy (POST request !! "merge_task_into") = false →
  truthy (POST request !! "add_comment") = true →
  comment_form_clean (POST request) (FILES request) = Some cleaned_body →
  attachments_formset_clean (POST request) (FILES request) = Some new_files →
  truthy (POST request !! "add_edit_task") = true →
  task_form_clean (user request) (POST request) t = Some cleaned_data →
  let result := task_detail settings request task_id w in
  comments result.2
  = <[next_pk (comments w) :=
        {| task := task_id; author := user_id (user request);
           body := cleaned_body; date := now request |}]> (comments w)
  ∧ title <$> tasks result.2 !! task_id
    = Some (bleach_clean (cleaned_title cleaned_data))
  ∧ messages result.2 = messages w ++ [posted; "The task has been edited."]
  ∧ ∃ l s, result.1 = redirect (list_detail_url l s).
Proof.
  intros Hlogin Hstaff Htask Hread Hmerge Hsubmitted Hcomment Hformset
    Hedit Hvalid. open_view.
  rewrite Hlogin, Hstaff, Htask, Hread. simpl.
  rewrite (handle_add_comment_saved _ _ _ _ _ _ _ _ Hsubmitted Hcomment Hformset).
  rewrite Hedit, Hvalid.
  destruct (attach_frame (next_pk (comments w)) new_files
              (set_comments
                 <[next_pk (comments w) :=
                     {| task := task_id; author := user_id (user request);
                        body := cleaned_body; date := now request |}]>
                 (enter CommentSubmission w)))
    as (Htasks & Hcomments & _ & Hmessages & _).
  destruct (HAS_TASK_MERGE settings); simpl in *; rewrite ?Hmerge; simpl;
    rewrite Hcomments, Hmessages, lookup_insert_eq; simpl;
    rewrite <- app_assoc; repeat split; by eexists _, _.
Qed.

End Pages.

(** ** Instances *)

(** [handle_add_comment_attachments] at a comment by alice with two
    files: two rows more, and the comment under key [2]. *)
Lemma handle_add_comment_attachments_witness :
  let request :=
    Fixtures.post Fixtures.alice [("add_comment", "1"); ("body", "eggs")]
      [("first", "list.txt"); ("second", "photo.png")] in
  let w' :=
    (handle_add_comment (collaborators := Fixtures.forms) request 1
       Fixtures.shopping AddEditCommentForm AttachmentFormSet_unbound
       Fixtures.db).2 in
  is_Some (comments w' !! 2) ∧ size (attachments w') = 2%nat.
Proof.
  intros request w'.
  pose proof (handle_add_comment_attachments (collaborators := Fixtures.forms)
    request 1 Fixtures.shopping AddEditCommentForm AttachmentFormSet_unbound
    Fixtures.db "eggs" ["photo.png"; "list.txt"] eq_refl eq_refl eq_refl)
    as (Hcomment & _ & Hsize & _).
  exact (conj Hcomment Hsize).
Defined.

(** [handle_add_comment_blank_forms] at a comment whose attachment
    has no name: the comment form comes back bound. *)
Lemma handle_add_comment_blank_forms_witness :
  let request :=
    Fixtures.post Fixtures.alice [("add_comment", "1"); ("body", "eggs")]
      [("attachment", "")] in
  (handle_add_comment (collaborators := Fixtures.forms) request 1
     Fixtures.shopping AddEditCommentForm AttachmentFormSet_unbound
     Fixtures.db).1.1
  = AddEditCommentForm_bound (POST request) (FILES request).
Proof.
  intros request.
  exact (proj2
    (handle_add_comment_blank_forms (collaborators := Fixtures.forms)
       request 1 Fixtures.shopping AddEditCommentForm AttachmentFormSet_unbound
       Fixtures.db eq_refl)
    (or_intror eq_refl)).
Defined.

(** [task_detail_other_tasks] at a toggle of task [1]: task [2] is as
    it was. *)
Lemma task_detail_other_tasks_witness :
  tasks
    (task_detail Fixtures.open_site (collaborators := Fixtures.forms)
       (Fixtures.post Fixtures.alice [("toggle_done", "1")] []) 1
       Fixtures.db).2 !! 2
  = Some Fixtures.groceries.
Proof.
  assert (Hother : (2 : Z) ≠ 1) by discriminate.
  exact (task_detail_other_tasks Fixtures.open_site
           (collaborators := Fixtures.forms)
           (Fixtures.post Fixtures.alice [("toggle_done", "1")] []) 1
           Fixtures.db 2 Hother).
Defined.

(** [task_detail_not_found] at a key no task has. *)
Lemma task_detail_not_found_witness :
  (task_detail Fixtures.open_site (collaborators := Fixtures.forms)
     (Fixtures.post Fixtures.bob [] []) 99 Fixtures.db).1
  = Http404.
Proof.
  exact (proj2
    (task_detail_not_found Fixtures.open_site (collaborators := Fixtures.forms)
       (Fixtures.post Fixtures.bob [] []) 99 Fixtures.db eq_refl eq_refl)
    eq_refl).
Defined.

(** [task_detail_unauthorised] at a visitor who is not logged in and
    submits the toggle. *)
Lemma task_detail_unauthorised_witness :
  (task_detail Fixtures.open_site (collaborators := Fixtures.forms)
     (Fixtures.post Scenes.anonymous [("toggle_done", "1")] []) 1
     Fixtures.db).2
  = Fixtures.db.
Proof.
  exact (proj1
    (task_detail_unauthorised Fixtures.open_site
       (collaborators := Fixtures.forms)
       (Fixtures.post Scenes.anonymous [("toggle_done", "1")] []) 1
       Fixtures.db (λ t _, eq_refl))).
Defined.

(** [task_detail_read_only] at alice looking at task [2], which is due
    on day [9]. *)
Lemma task_detail_read_only_witness :
  ∃ context,
    task_detail Fixtures.open_site (collaborators := Fixtures.forms)
      (Fixtures.post Fixtures.alice [] []) 2 Fixtures.db
    = (render "todo/task_detail.html" context, Fixtures.db)
    ∧ ctx_thedate context = 9
    ∧ ctx_merge_form context = Some MergeForm_unbound.
Proof.
  eexists. split.
  - exact (task_detail_read_only Fixtures.open_site
             (collaborators := Fixtures.forms)
             (Fixtures.post Fixtures.alice [] []) 2 Fixtures.db
             Fixtures.groceries
             eq_refl eq_refl eq_refl eq_refl eq_refl eq_refl eq_refl eq_refl).
  - split; reflexivity.
Defined.

(** [task_detail_without_merge] at a merge request sent to a site
    without the feature. *)
Lemma task_detail_without_merge_witness :
  comments Fixtures.db
  ⊆ comments
      (task_detail Scenes.plain_site (collaborators := Fixtures.forms)
         (Fixtures.post Fixtures.alice
            [("merge_task_into", "1"); ("merge_target", "2")] [])
         1 Fixtures.db).2.
Proof.
  exact (proj1
    (task_detail_without_merge Scenes.plain_site
       (collaborators := Fixtures.forms)
       (Fixtures.post Fixtures.alice
          [("merge_task_into", "1"); ("merge_target", "2")] [])
       1 Fixtures.db eq_refl)).
Defined.

(** [task_detail_merge_only] at a merge request that also carries a
    valid comment. *)
Lemma task_detail_merge_only_witness :
  let result :=
    task_detail Fixtures.open_site (collaborators := Fixtures.forms)
      (Fixtures.post Fixtures.alice
         [("merge_task_into", "1"); ("merge_target", "2");
          ("add_comment", "1"); ("body", "eggs")] [])
      1 Fixtures.db in
  dom (comments result.2) = dom (comments Fixtures.db)
  ∧ outbox result.2 = [].
Proof.
  intros result.
  pose proof (task_detail_merge_only Fixtures.open_site
    (collaborators := Fixtures.forms)
    (Fixtures.post Fixtures.alice
       [("merge_task_into", "1"); ("merge_target", "2");
        ("add_comment", "1"); ("body", "eggs")] [])
    1 Fixtures.db Fixtures.shopping
    eq_refl eq_refl eq_refl eq_refl eq_refl eq_refl)
    as (Hkeys & _ & Houtbox & _).
  exact (conj Hkeys Houtbox).
Defined.

(** [task_detail_edit_invalid] at an edit with a note and without a
    title: the table is as before, and the page shows the task with the
    note that validation wrote into it. *)
Lemma task_detail_edit_invalid_witness :
  let result :=
    task_detail Fixtures.open_site (collaborators := Fixtures.forms)
      (Fixtures.post Fixtures.alice
         [("add_edit_task", "1"); ("note", "hello")] []) 1 Fixtures.db in
  tasks result.2 = tasks Fixtures.db
  ∧ ∃ context,
      result.1 = render "todo/task_detail.html" context
      ∧ note (ctx_task context) = "hello".
Proof.
  intros result.
  destruct (task_detail_edit_invalid Fixtures.open_site
    (collaborators := Fixtures.forms)
    (Fixtures.post Fixtures.alice
       [("add_edit_task", "1"); ("note", "hello")] []) 1
    Fixtures.db Fixtures.shopping
    eq_refl eq_refl eq_refl eq_refl eq_refl eq_refl eq_refl eq_refl)
    as (Htasks & context & Hpage & _ & Htask & _).
  split; [exact Htasks|]. exists context. split; [exact Hpage|].
  rewrite Htask. reflexivity.
Defined.

(** [task_detail_comment_posted] at a comment by alice on task [1]. *)
Lemma task_detail_comment_posted_witness :
  messages
    (task_detail Fixtures.open_site (collaborators := Fixtures.forms)
       (Fixtures.post Fixtures.alice [("add_comment", "1"); ("body", "eggs")] [])
       1 Fixtures.db).2
  = ["Comment posted. Notification email sent to thread participants."].
Proof.
  pose proof (task_detail_comment_posted Fixtures.open_site
    (collaborators := Fixtures.forms)
    (Fixtures.post Fixtures.alice [("add_comment", "1"); ("body", "eggs")] [])
    1 Fixtures.db Fixtures.shopping "eggs" []
    eq_refl eq_refl eq_refl eq_refl eq_refl eq_refl eq_refl eq_refl eq_refl
    eq_refl) as (_ & _ & Hmessages & _).
  exact Hmessages.
Defined.

(** [task_detail_comment_rejected] at a comment without a body. *)
Lemma task_detail_comment_rejected_witness :
  comments
    (task_detail Fixtures.open_site (collaborators := Fixtures.forms)
       (Fixtures.post Fixtures.alice [("add_comment", "1")] []) 1
       Fixtures.db).2
  = comments Fixtures.db.
Proof.
  pose proof (task_detail_comment_rejected Fixtures.open_site
    (collaborators := Fixtures.forms)
    (Fixtures.post Fixtures.alice [("add_comment", "1")] []) 1
    Fixtures.db Fixtures.shopping
    eq_refl eq_refl eq_refl eq_refl eq_refl eq_refl (or_introl eq_refl)
    eq_refl eq_refl) as (_ & Hcomments & _).
  exact Hcomments.
Defined.

(** [task_detail_comment_and_edit] at a comment and a new title in one
    request. *)
Lemma task_detail_comment_and_edit_witness :
  let result :=
    task_detail Fixtures.open_site (collaborators := Fixtures.forms)
      (Fixtures.post Fixtures.alice
         [("add_comment", "1"); ("body", "eggs");
          ("add_edit_task", "1"); ("title", "<u>market</u>")] [])
      1 Fixtures.db in
  title <$> tasks result.2 !! 1 = Some "market"
  ∧ messages result.2
    = ["Comment posted. Notification email sent to thread participants.";
       "The task has been edited."].
Proof.
  intros result.
  pose proof (task_detail_comment_and_edit Fixtures.open_site
    (collaborators := Fixtures.forms)
    (Fixtures.post Fixtures.alice
       [("add_comment", "1"); ("body", "eggs");
        ("add_edit_task", "1"); ("title", "<u>market</u>")] [])
    1 Fixtures.db Fixtures.shopping "eggs" []
    {| cleaned_title := "<u>market</u>"; cleaned_note := "";
       cleaned_due_date := None; cleaned_task_list := Fixtures.home |}
    eq_refl eq_refl eq_refl eq_refl eq_refl eq_refl eq_refl eq_refl eq_refl
    eq_refl) as (_ & Htitle & Hmessages & _).
  exact (conj Htitle Hmessages).
Defined.
